(** * json_to_images: layout and composition of ARC puzzle images

    A shallow embedding of [json_to_images.py].  Python integers are [Z],
    lists are [list], the JSON objects of the document are finite maps with
    string keys, exceptions are an error monad, and the PIL canvas is a
    record that logs the drawing primitives issued against it. *)

From stdpp Require Import gmap strings list fin_maps.
From Stdlib Require Import ZArith DecimalString Lia.

Open Scope Z_scope.

(** ** Exceptions *)

Inductive exn :=
  | ValueError (msg : string)
  | IndexError (msg : string)
  | KeyError (msg : string)
  | OSError (msg : string).

(** [str(e)] *)
Definition str (e : exn) : string :=
  match e with
  | ValueError m | IndexError m | KeyError m | OSError m => m
  end.

(** [isinstance(e, ValueError)], the test made by [except ValueError]. *)
Definition is_ValueError (e : exn) : bool :=
  match e with ValueError _ => true | _ => false end.

Inductive result (A : Type) :=
  | Ok (a : A)
  | Raise (e : exn).
Arguments Ok {A} a.
Arguments Raise {A} e.

#[global] Instance result_ret : MRet result := fun _ a => Ok a.
#[global] Instance result_bind : MBind result := fun _ _ f m =>
  match m with
  | Ok a => f a
  | Raise e => Raise e
  end.

Definition succeeds {A} (r : result A) : Prop := exists a, r = Ok a.

(** ** Python built-ins *)

Definition len {A} (l : list A) : Z := Z.of_nat (length l).

(** Truth value of a list: empty lists are false. *)
Definition truthy {A} (l : list A) : bool :=
  match l with
  | [] => false
  | _ :: _ => true
  end.

(** [range(n)] *)
Definition range (n : Z) : list Z := Z.of_nat <$> seq 0 (Z.to_nat n).

(** [l[i]]: negative indices count from the end, anything out of range
    raises [IndexError]. *)
Definition index {A} (l : list A) (i : Z) : result A :=
  let j := if i <? 0 then len l + i else i in
  if j <? 0 then Raise (IndexError "list index out of range")
  else match l !! Z.to_nat j with
       | Some a => Ok a
       | None => Raise (IndexError "list index out of range")
       end.

(** [d[k]] *)
Definition subscript `{Countable K} {V} (d : gmap K V) (k : K) (repr : string)
  : result V :=
  match d !! k with
  | Some v => Ok v
  | None => Raise (KeyError repr)
  end.

(** [d.get(k, dflt)] *)
Definition dict_get `{Countable K} {V} (d : gmap K V) (k : K) (dflt : V) : V :=
  default dflt (d !! k).

(** A [for] loop over [l] threading the mutated state [s]. *)
Fixpoint for_each {A S} (l : list A) (s : S) (body : A -> S -> result S)
  : result S :=
  match l with
  | [] => Ok s
  | a :: l' => s' ← body a s; for_each l' s' body
  end.

(** ** Constants *)

Definition rgb : Type := Z * Z * Z.

Definition ARC_COLORS : gmap Z rgb :=
  list_to_map
    [ (0, (0, 0, 0));
      (1, (0, 116, 217));
      (2, (255, 65, 54));
      (3, (46, 204, 64));
      (4, (255, 220, 0));
      (5, (170, 170, 170));
      (6, (240, 18, 190));
      (7, (255, 133, 27));
      (8, (127, 219, 255));
      (9, (128, 0, 0)) ].

Definition CELL_SIZE : Z := 20.
Definition GRID_PADDING : Z := 0.
Definition GRID_SPACING : Z := 20.
Definition LABEL_HEIGHT : Z := 30.
Definition MARGIN : Z := 20.

(** ** The canvas

    [Image.new] allocates a canvas; [ImageDraw.Draw(img)] is a handle on the
    same canvas, so drawing through it is modelled as an update of the image:
    each primitive is appended to the log [ops]. *)

Inductive draw_op :=
  | Rectangle (box : Z * Z * Z * Z) (fill outline : rgb)
  | Text (xy : Z * Z) (text : string) (fill : rgb).

Record Image := mkImage {
  size : Z * Z;
  background : rgb;
  ops : list draw_op
}.

Definition Image_new (sz : Z * Z) (color : rgb) : Image :=
  {| size := sz; background := color; ops := [] |}.

Definition emit (img : Image) (new : list draw_op) : Image :=
  {| size := size img; background := background img; ops := ops img ++ new |}.

Definition draw_rectangle (draw : Image) (box : Z * Z * Z * Z)
    (fill outline : rgb) : Image :=
  emit draw [Rectangle box fill outline].

Definition draw_text (draw : Image) (xy : Z * Z) (text : string) (fill : rgb)
  : Image :=
  emit draw [Text xy text fill].

(** ** Grids *)

Abbreviation Grid := (list (list Z)).

Definition draw_grid (draw : Image) (grid : Grid)
    (x_offset y_offset cell_size grid_padding : Z) : result Image :=
  if negb (truthy grid) || (len grid =? 0) then Ok draw
  else
    let height := len grid in
    width ← (if 0 <? height then row ← index grid 0; Ok (len row) else Ok 0);
    for_each (range height) draw (fun y draw =>
      for_each (range width) draw (fun x draw =>
        in_bounds ← (if y <? len grid
                     then row ← index grid y; Ok (x <? len row)
                     else Ok false);
        color_id ← (if in_bounds : bool
                    then row ← index grid y; index row x
                    else Ok 0);
        black ← subscript ARC_COLORS 0 "0";
        let color := dict_get ARC_COLORS color_id black in
        let cell_x := x_offset + x * (cell_size + grid_padding) in
        let cell_y := y_offset + y * (cell_size + grid_padding) in
        Ok (draw_rectangle draw
              (cell_x, cell_y, cell_x + cell_size - 1, cell_y + cell_size - 1)
              color (100, 100, 100)))).

Definition draw_blank_grid (draw : Image) (width height : Z)
    (x_offset y_offset cell_size grid_padding : Z) : result Image :=
  for_each (range height) draw (fun y draw =>
    for_each (range width) draw (fun x draw =>
      let cell_x := x_offset + x * (cell_size + grid_padding) in
      let cell_y := y_offset + y * (cell_size + grid_padding) in
      Ok (draw_rectangle draw
            (cell_x, cell_y, cell_x + cell_size - 1, cell_y + cell_size - 1)
            (255, 255, 255) (200, 200, 200)))).

Definition get_grid_size (grid : Grid) : result (Z * Z) :=
  if negb (truthy grid) || (len grid =? 0) then Ok (0, 0)
  else
    w ← (if 0 <? len grid then row ← index grid 0; Ok (len row) else Ok 0);
    Ok (w, len grid).

(** ** Documents

    The parsed JSON document: an object whose keys ["train"] and ["test"]
    hold lists of objects, each with the grids under ["input"] and
    ["output"].  Any key may be missing. *)

Abbreviation Example := (gmap string Grid).
Abbreviation Document := (gmap string (list (gmap string Grid))).

(** [enumerate(l, start)] and [enumerate(l)] *)
Fixpoint enumerate_from {A} (start : Z) (l : list A) : list (Z * A) :=
  match l with
  | [] => []
  | a :: l' => (start, a) :: enumerate_from (start + 1) l'
  end.

Definition enumerate {A} (l : list A) : list (Z * A) := enumerate_from 0 l.

(** [f"{n}"] for an integer. *)
Definition format_int (n : Z) : string := NilZero.string_of_int (Z.to_int n).

(** The dictionaries collected in [train_info] and the one in [test_info]. *)
Module TrainInfo.
Record t := mk {
  index : Z;
  input : Grid;
  output : Grid;
  input_size : Z * Z;
  output_size : Z * Z;
  height : Z
}.
End TrainInfo.

Module TestInfo.
Record t := mk {
  input : Grid;
  output : Grid;
  input_size : Z * Z;
  output_size : Z * Z;
  input_height : Z;
  output_height : Z
}.
End TestInfo.

(** ** Layout of the training examples

    The loop "Process train examples", which [create_puzzle_image]
    (lines 98-126) and [create_examples_image] (lines 263-291) both run; the
    state is [(examples_width, examples_height, train_info)]. *)

Definition process_train_example (item : Z * Example)
    (st : Z * Z * list TrainInfo.t) : result (Z * Z * list TrainInfo.t) :=
  let '(i, example) := item in
  let '(examples_width, examples_height, train_info) := st in
  let input_grid := dict_get example "input" [] in
  let output_grid := dict_get example "output" [] in
  '(input_w, input_h) ← get_grid_size input_grid;
  '(output_w, output_h) ← get_grid_size output_grid;
  let grid_width :=
    input_w * (CELL_SIZE + GRID_PADDING)
    + GRID_SPACING
    + output_w * (CELL_SIZE + GRID_PADDING) in
  let grid_height := Z.max input_h output_h * (CELL_SIZE + GRID_PADDING) in
  let examples_width := Z.max examples_width grid_width in
  let train_info :=
    train_info ++
    [ {| TrainInfo.index := i;
         TrainInfo.input := input_grid;
         TrainInfo.output := output_grid;
         TrainInfo.input_size := (input_w, input_h);
         TrainInfo.output_size := (output_w, output_h);
         TrainInfo.height := grid_height |} ] in
  let examples_height :=
    examples_height + (grid_height + LABEL_HEIGHT * 2 + GRID_SPACING) in
  Ok (examples_width, examples_height, train_info).

Definition process_train_examples (train : list Example)
  : result (Z * Z * list TrainInfo.t) :=
  for_each (enumerate train) (0, 0, []) process_train_example.

(** ** create_puzzle_image *)

(** "Process test input (right side)", lines 128-150: yields
    [(test_info, test_width)]. *)
Definition process_test_input (test : list Example)
  : result (option TestInfo.t * Z) :=
  if truthy test && (0 <? len test) then
    t0 ← index test 0;
    let test_input := dict_get t0 "input" [] in
    t0 ← index test 0;
    let test_output := dict_get t0 "output" [] in
    '(test_w, test_h) ← get_grid_size test_input;
    '(output_w, output_h) ←
      (if truthy test_output then get_grid_size test_output
       else Ok (test_w, test_h));
    let test_width := Z.max test_w output_w * (CELL_SIZE + GRID_PADDING) in
    Ok (Some {| TestInfo.input := test_input;
                TestInfo.output := test_output;
                TestInfo.input_size := (test_w, test_h);
                TestInfo.output_size := (output_w, output_h);
                TestInfo.input_height := test_h * (CELL_SIZE + GRID_PADDING);
                TestInfo.output_height := output_h * (CELL_SIZE + GRID_PADDING) |},
        test_width)
  else Ok (None, 0).

(** The locals computed before the canvas is allocated, lines 92-171. *)
Record puzzle_layout := mk_puzzle_layout {
  train_info : list TrainInfo.t;
  test_info : option TestInfo.t;
  examples_width : Z;
  examples_height : Z;
  test_width : Z;
  left_column_width : Z;
  right_column_width : Z;
  column_spacing : Z;
  img_width : Z;
  test_column_height : Z;
  img_height : Z
}.

Definition compute_puzzle_layout (train test : list Example)
  : result puzzle_layout :=
  '(examples_width, examples_height, train_info) ← process_train_examples train;
  '(test_info, test_width) ← process_test_input test;
  let left_column_width := examples_width + 2 * MARGIN in
  let right_column_width :=
    if test_info is Some _ then test_width + 2 * MARGIN else 0 in
  let column_spacing := GRID_SPACING * 2 in
  let img_width := left_column_width + column_spacing + right_column_width in
  let test_column_height :=
    match test_info with
    | Some ti =>
        LABEL_HEIGHT
        + LABEL_HEIGHT
        + TestInfo.input_height ti
        + GRID_SPACING
        + LABEL_HEIGHT
        + TestInfo.output_height ti
    | None => 0
    end in
  let img_height := Z.max examples_height test_column_height + MARGIN in
  Ok {| train_info := train_info;
        test_info := test_info;
        examples_width := examples_width;
        examples_height := examples_height;
        test_width := test_width;
        left_column_width := left_column_width;
        right_column_width := right_column_width;
        column_spacing := column_spacing;
        img_width := img_width;
        test_column_height := test_column_height;
        img_height := img_height |}.

(** One iteration of "Draw train examples on the left", lines 179-209; the
    state is [(draw, y_pos, example2_output_y)]. *)
Definition draw_train_example (info : TrainInfo.t)
    (st : Image * Z * option Z) : result (Image * Z * option Z) :=
  let '(draw, y_pos, example2_output_y) := st in
  let label := "Example " +:+ format_int (TrainInfo.index info + 1) in
  let draw := draw_text draw (MARGIN, y_pos) label (0, 0, 0) in
  let y_pos := y_pos + LABEL_HEIGHT in
  let '(input_w, input_h) := TrainInfo.input_size info in
  let '(output_w, output_h) := TrainInfo.output_size info in
  let input_x := MARGIN in
  let input_y := y_pos + LABEL_HEIGHT in
  let draw := draw_text draw (input_x, y_pos) "Input" (0, 0, 0) in
  draw ← draw_grid draw (TrainInfo.input info) input_x input_y
           CELL_SIZE GRID_PADDING;
  let output_x :=
    input_x + input_w * (CELL_SIZE + GRID_PADDING) + GRID_SPACING in
  let output_y := y_pos + LABEL_HEIGHT in
  let draw := draw_text draw (output_x, y_pos) "Output" (0, 0, 0) in
  draw ← draw_grid draw (TrainInfo.output info) output_x output_y
           CELL_SIZE GRID_PADDING;
  let example2_output_y :=
    if TrainInfo.index info =? 1 then Some output_y else example2_output_y in
  let y_pos := y_pos + LABEL_HEIGHT + TrainInfo.height info + GRID_SPACING in
  Ok (draw, y_pos, example2_output_y).

(** "Draw test input and output on the right", lines 211-245. *)
Definition draw_test_column (draw : Image) (L : puzzle_layout)
    (example2_output_y : option Z) : result Image :=
  match test_info L with
  | Some ti =>
      let test_x := left_column_width L + column_spacing L + MARGIN in
      let test_y := MARGIN in
      let draw := draw_text draw (test_x, test_y) "Test" (0, 0, 0) in
      let test_y := test_y + LABEL_HEIGHT in
      let draw := draw_text draw (test_x, test_y) "Input" (0, 0, 0) in
      let test_y := test_y + LABEL_HEIGHT in
      draw ← draw_grid draw (TestInfo.input ti) test_x test_y
               CELL_SIZE GRID_PADDING;
      let '(output_w, output_h) := TestInfo.output_size ti in
      let '(draw, test_output_y) :=
        match example2_output_y with
        | Some y =>
            let test_output_y := y in
            let output_label_y := test_output_y - LABEL_HEIGHT in
            (draw_text draw (test_x, output_label_y) "Output" (0, 0, 0),
             test_output_y)
        | None =>
            let test_y := test_y + TestInfo.input_height ti + GRID_SPACING in
            let draw := draw_text draw (test_x, test_y) "Output" (0, 0, 0) in
            let test_y := test_y + LABEL_HEIGHT in
            (draw, test_y)
        end in
      draw_blank_grid draw output_w output_h test_x test_output_y
        CELL_SIZE GRID_PADDING
  | None => Ok draw
  end.

Definition create_puzzle_image (data : Document) : result Image :=
  let train := dict_get data "train" [] in
  let test := dict_get data "test" [] in
  if negb (truthy train) && negb (truthy test)
  then Raise (ValueError "No train or test data found")
  else
    L ← compute_puzzle_layout train test;
    let img := Image_new (img_width L, img_height L) (255, 255, 255) in
    '(draw, y_pos, example2_output_y) ←
      for_each (train_info L) (img, MARGIN, None) draw_train_example;
    draw_test_column draw L example2_output_y.

(** ** create_examples_image *)

(** One iteration of "Draw train examples"; the state is [(draw, y_pos)]. *)
Definition draw_example (info : TrainInfo.t) (st : Image * Z)
  : result (Image * Z) :=
  let '(draw, y_pos) := st in
  let label := "Example " +:+ format_int (TrainInfo.index info + 1) in
  let draw := draw_text draw (MARGIN, y_pos) label (0, 0, 0) in
  let y_pos := y_pos + LABEL_HEIGHT in
  let '(input_w, input_h) := TrainInfo.input_size info in
  let '(output_w, output_h) := TrainInfo.output_size info in
  let input_x := MARGIN in
  let input_y := y_pos + LABEL_HEIGHT in
  let draw := draw_text draw (input_x, y_pos) "Input" (0, 0, 0) in
  draw ← draw_grid draw (TrainInfo.input info) input_x input_y
           CELL_SIZE GRID_PADDING;
  let output_x :=
    input_x + input_w * (CELL_SIZE + GRID_PADDING) + GRID_SPACING in
  let output_y := y_pos + LABEL_HEIGHT in
  let draw := draw_text draw (output_x, y_pos) "Output" (0, 0, 0) in
  draw ← draw_grid draw (TrainInfo.output info) output_x output_y
           CELL_SIZE GRID_PADDING;
  let y_pos := y_pos + LABEL_HEIGHT + TrainInfo.height info + GRID_SPACING in
  Ok (draw, y_pos).

Definition create_examples_image (data : Document) : result Image :=
  let train := dict_get data "train" [] in
  if negb (truthy train) then Raise (ValueError "No train data found")
  else
    '(examples_width, examples_height, train_info) ←
      process_train_examples train;
    let img_width := examples_width + 2 * MARGIN in
    let img_height := examples_height + MARGIN in
    let img := Image_new (img_width, img_height) (255, 255, 255) in
    '(draw, y_pos) ← for_each train_info (img, MARGIN) draw_example;
    Ok draw.

(** ** create_test_image *)

Definition create_test_image (data : Document) : result Image :=
  let test := dict_get data "test" [] in
  if negb (truthy test) || (len test =? 0)
  then Raise (ValueError "No test data found")
  else
    t0 ← index test 0;
    let test_input := dict_get t0 "input" [] in
    t0 ← index test 0;
    let test_output := dict_get t0 "output" [] in
    if negb (truthy test_input) then Raise (ValueError "No test input found")
    else
      '(input_w, input_h) ← get_grid_size test_input;
      '(output_w, output_h) ←
        (if truthy test_output then get_grid_size test_output
         else Ok (input_w, input_h));
      let grid_width := Z.max input_w output_w * (CELL_SIZE + GRID_PADDING) in
      let input_height := input_h * (CELL_SIZE + GRID_PADDING) in
      let output_height := output_h * (CELL_SIZE + GRID_PADDING) in
      let img_width := grid_width + 2 * MARGIN in
      let img_height :=
        LABEL_HEIGHT
        + LABEL_HEIGHT
        + input_height
        + GRID_SPACING
        + LABEL_HEIGHT
        + output_height
        + MARGIN in
      let draw := Image_new (img_width, img_height) (255, 255, 255) in
      let test_x := MARGIN in
      let test_y := MARGIN in
      let draw := draw_text draw (test_x, test_y) "Test" (0, 0, 0) in
      let test_y := test_y + LABEL_HEIGHT in
      let draw := draw_text draw (test_x, test_y) "Input" (0, 0, 0) in
      let test_y := test_y + LABEL_HEIGHT in
      draw ← draw_grid draw test_input test_x test_y CELL_SIZE GRID_PADDING;
      let test_y := test_y + input_height + GRID_SPACING in
      let draw := draw_text draw (test_x, test_y) "Output" (0, 0, 0) in
      let test_y := test_y + LABEL_HEIGHT in
      draw_blank_grid draw output_w output_h test_x test_y
        CELL_SIZE GRID_PADDING.

(** ** create_answer_image *)

Definition create_answer_image (data : Document) : result Image :=
  let test := dict_get data "test" [] in
  if negb (truthy test) || (len test =? 0)
  then Raise (ValueError "No test data found")
  else
    t0 ← index test 0;
    let test_output := dict_get t0 "output" [] in
    if negb (truthy test_output) || (len test_output =? 0)
    then Raise (ValueError "No test output found")
    else
      '(output_w, output_h) ← get_grid_size test_output;
      let img_width := output_w * (CELL_SIZE + GRID_PADDING) + 2 * MARGIN in
      let img_height :=
        output_h * (CELL_SIZE + GRID_PADDING) + LABEL_HEIGHT + 2 * MARGIN in
      let draw := Image_new (img_width, img_height) (255, 255, 255) in
      let draw := draw_text draw (MARGIN, MARGIN) "Test Output" (0, 0, 0) in
      let output_x := MARGIN in
      let output_y := MARGIN + LABEL_HEIGHT in
      draw_grid draw test_output output_x output_y CELL_SIZE GRID_PADDING.

(** ** main

    What the process has done so far: the lines printed on the two streams
    and the files written. *)

Record world := mk_world {
  stdout : list string;
  stderr : list string;
  files : list (string * Image)
}.

Definition start : world := {| stdout := []; stderr := []; files := [] |}.

Definition print (w : world) (line : string) : world :=
  {| stdout := stdout w ++ [line]; stderr := stderr w; files := files w |}.

Definition eprint (w : world) (line : string) : world :=
  {| stdout := stdout w; stderr := stderr w ++ [line]; files := files w |}.

Definition written (w : world) (path : string) (img : Image) : world :=
  {| stdout := stdout w; stderr := stderr w;
     files := files w ++ [(path, img)] |}.

(** After a [try] statement the process either goes on or has left through
    [sys.exit]. *)
Inductive control :=
  | Next
  | Exit (code : Z).

Definition and_then (s1 s2 : world -> world * control) (w : world)
  : world * control :=
  match s1 w with
  | (w', Next) => s2 w'
  | (w', Exit code) => (w', Exit code)
  end.

(** The exit status of the process: 0 when [main] returns. *)
Definition exit_status (c : control) : Z :=
  match c with
  | Next => 0
  | Exit code => code
  end.

Section Main.

(** [Image.save]: the file system decides whether writing succeeds. *)
Variable save : Image -> string -> result unit.

Variables output_dir base_name : string.

(** The body of each [try]: build, save, report. *)
Definition produce (build : result Image) (suffix : string)
  : result (string * Image) :=
  img ← build;
  let path := output_dir +:+ "/" +:+ base_name +:+ suffix in
  _ ← save img path;
  Ok (path, img).

Definition created (w : world) (f : string * Image) : world :=
  print (written w f.1 f.2) ("Created: " +:+ f.1).

Definition try_puzzle (data : Document) (w : world) : world * control :=
  match produce (create_puzzle_image data) "-puzzle.png" with
  | Ok f => (created w f, Next)
  | Raise e =>
      (eprint w ("Error creating puzzle image: " +:+ str e), Exit 1)
  end.

Definition try_examples (data : Document) (w : world) : world * control :=
  match produce (create_examples_image data) "-examples.png" with
  | Ok f => (created w f, Next)
  | Raise e =>
      (eprint w ("Error creating examples image: " +:+ str e), Exit 1)
  end.

Definition try_test (data : Document) (w : world) : world * control :=
  match produce (create_test_image data) "-test.png" with
  | Ok f => (created w f, Next)
  | Raise e =>
      if is_ValueError e
      then (eprint w ("Warning: " +:+ str e +:+ ". Skipping test image."),
            Next)
      else (eprint w ("Error creating test image: " +:+ str e), Next)
  end.

Definition try_answer (data : Document) (w : world) : world * control :=
  match produce (create_answer_image data) "-answer.png" with
  | Ok f => (created w f, Next)
  | Raise e =>
      if is_ValueError e
      then (eprint w ("Warning: " +:+ str e +:+ ". Skipping answer image."),
            Next)
      else (eprint w ("Error creating answer image: " +:+ str e), Exit 1)
  end.

(** [main] from "Create puzzle image" on; what precedes it (argument
    parsing, reading the file, the output directory) fixes [output_dir],
    [base_name] and [data]. *)
Definition main (data : Document) : world * control :=
  and_then (try_puzzle data)
    (and_then (try_examples data)
       (and_then (try_test data) (try_answer data))) start.

End Main.

(** ** What the loops compute

    Closed forms of the values the loops above build up; the lemmas of the
    second part show that the code computes exactly these. *)

(** The dimensions of a grid: width from the first row. *)
Definition grid_size (grid : Grid) : Z * Z :=
  match grid with
  | [] => (0, 0)
  | row :: _ => (len row, len grid)
  end.

(** The colour index read for cell [(y, x)] and the colour it resolves to. *)
Definition cell_id (grid : Grid) (y x : nat) : Z :=
  match grid !! y with
  | Some row => default 0 (row !! x)
  | None => 0
  end.

Definition cell_color (grid : Grid) (y x : nat) : rgb :=
  dict_get ARC_COLORS (cell_id grid y x) (0, 0, 0).

Definition cell_box (x_offset y_offset cell_size grid_padding : Z) (y x : nat)
  : Z * Z * Z * Z :=
  let cell_x := x_offset + Z.of_nat x * (cell_size + grid_padding) in
  let cell_y := y_offset + Z.of_nat y * (cell_size + grid_padding) in
  (cell_x, cell_y, cell_x + cell_size - 1, cell_y + cell_size - 1).

(** The rectangles of a [height] by [width] block of cells, row by row. *)
Definition cells (paint : nat -> nat -> draw_op) (width height : nat)
  : list draw_op :=
  y ← seq 0 height; x ← seq 0 width; [paint y x].

Definition grid_cells (grid : Grid) (x_offset y_offset cell_size grid_padding : Z)
  : list draw_op :=
  cells (fun y x =>
           Rectangle (cell_box x_offset y_offset cell_size grid_padding y x)
             (cell_color grid y x) (100, 100, 100))
    (Z.to_nat (grid_size grid).1) (Z.to_nat (grid_size grid).2).

Definition blank_cells (width height x_offset y_offset cell_size grid_padding : Z)
  : list draw_op :=
  cells (fun y x =>
           Rectangle (cell_box x_offset y_offset cell_size grid_padding y x)
             (255, 255, 255) (200, 200, 200))
    (Z.to_nat width) (Z.to_nat height).

(** The entry of [train_info] built for the example numbered [i]. *)
Definition example_info (i : Z) (example : Example) : TrainInfo.t :=
  let input_grid := dict_get example "input" [] in
  let output_grid := dict_get example "output" [] in
  {| TrainInfo.index := i;
     TrainInfo.input := input_grid;
     TrainInfo.output := output_grid;
     TrainInfo.input_size := grid_size input_grid;
     TrainInfo.output_size := grid_size output_grid;
     TrainInfo.height :=
       Z.max (grid_size input_grid).2 (grid_size output_grid).2
       * (CELL_SIZE + GRID_PADDING) |}.

Fixpoint infos_from (start : Z) (train : list Example) : list TrainInfo.t :=
  match train with
  | [] => []
  | example :: train' =>
      example_info start example :: infos_from (start + 1) train'
  end.

(** Pixel height of an example's row of grids, and pixel width of its input,
    the spacing and its output side by side. *)
Definition example_height (example : Example) : Z :=
  TrainInfo.height (example_info 0 example).

Definition example_width (example : Example) : Z :=
  (grid_size (dict_get example "input" [])).1 * (CELL_SIZE + GRID_PADDING)
  + GRID_SPACING
  + (grid_size (dict_get example "output" [])).1 * (CELL_SIZE + GRID_PADDING).

(** Width and height of the column of examples. *)
Fixpoint column_width (train : list Example) : Z :=
  match train with
  | [] => 0
  | example :: train' => Z.max (example_width example) (column_width train')
  end.

Fixpoint column_height (train : list Example) : Z :=
  match train with
  | [] => 0
  | example :: train' =>
      example_height example + LABEL_HEIGHT * 2 + GRID_SPACING
      + column_height train'
  end.

(** What one iteration of the drawing loop draws when it starts at [y_pos]. *)
Definition example_ops (info : TrainInfo.t) (y_pos : Z) : list draw_op :=
  let output_x :=
    MARGIN + (TrainInfo.input_size info).1 * (CELL_SIZE + GRID_PADDING)
    + GRID_SPACING in
  [ Text (MARGIN, y_pos)
      ("Example " +:+ format_int (TrainInfo.index info + 1)) (0, 0, 0);
    Text (MARGIN, y_pos + LABEL_HEIGHT) "Input" (0, 0, 0) ]
  ++ grid_cells (TrainInfo.input info) MARGIN
       (y_pos + LABEL_HEIGHT + LABEL_HEIGHT) CELL_SIZE GRID_PADDING
  ++ [ Text (output_x, y_pos + LABEL_HEIGHT) "Output" (0, 0, 0) ]
  ++ grid_cells (TrainInfo.output info) output_x
       (y_pos + LABEL_HEIGHT + LABEL_HEIGHT) CELL_SIZE GRID_PADDING.

(** Where [y_pos] stands after the iteration for [info]. *)
Definition next_y (info : TrainInfo.t) (y_pos : Z) : Z :=
  y_pos + LABEL_HEIGHT + LABEL_HEIGHT + TrainInfo.height info + GRID_SPACING.

Fixpoint train_ops (infos : list TrainInfo.t) (y_pos : Z) : list draw_op :=
  match infos with
  | [] => []
  | info :: infos' => example_ops info y_pos ++ train_ops infos' (next_y info y_pos)
  end.

Fixpoint last_y (infos : list TrainInfo.t) (y_pos : Z) : Z :=
  match infos with
  | [] => y_pos
  | info :: infos' => last_y infos' (next_y info y_pos)
  end.

(** The value of [example2_output_y] after the drawing loop. *)
Fixpoint tracked (infos : list TrainInfo.t) (y_pos : Z) (seen : option Z)
  : option Z :=
  match infos with
  | [] => seen
  | info :: infos' =>
      tracked infos' (next_y info y_pos)
        (if TrainInfo.index info =? 1
         then Some (y_pos + LABEL_HEIGHT + LABEL_HEIGHT)
         else seen)
  end.

(** Dimensions of the blank grid drawn for a test pair. *)
Definition blank_size (t : Example) : Z * Z :=
  if truthy (dict_get t "output" [])
  then grid_size (dict_get t "output" [])
  else grid_size (dict_get t "input" []).

(** The entry [test_info] built for the first test pair. *)
Definition first_test_info (t : Example) : TestInfo.t :=
  let test_input := dict_get t "input" [] in
  {| TestInfo.input := test_input;
     TestInfo.output := dict_get t "output" [];
     TestInfo.input_size := grid_size test_input;
     TestInfo.output_size := blank_size t;
     TestInfo.input_height :=
       (grid_size test_input).2 * (CELL_SIZE + GRID_PADDING);
     TestInfo.output_height := (blank_size t).2 * (CELL_SIZE + GRID_PADDING) |}.

(** The layout of the puzzle image for the examples [train] and the first
    test pair, if any. *)
Definition puzzle_layout_of (train : list Example) (first : option Example)
  : puzzle_layout :=
  let test_width :=
    match first with
    | Some t =>
        Z.max (grid_size (dict_get t "input" [])).1 (blank_size t).1
        * (CELL_SIZE + GRID_PADDING)
    | None => 0
    end in
  let test_column_height :=
    match first with
    | Some t =>
        LABEL_HEIGHT + LABEL_HEIGHT
        + (grid_size (dict_get t "input" [])).2 * (CELL_SIZE + GRID_PADDING)
        + GRID_SPACING + LABEL_HEIGHT
        + (blank_size t).2 * (CELL_SIZE + GRID_PADDING)
    | None => 0
    end in
  {| train_info := infos_from 0 train;
     test_info := first_test_info <$> first;
     examples_width := column_width train;
     examples_height := column_height train;
     test_width := test_width;
     left_column_width := column_width train + 2 * MARGIN;
     right_column_width :=
       if first is Some _ then test_width + 2 * MARGIN else 0;
     column_spacing := GRID_SPACING * 2;
     img_width :=
       column_width train + 2 * MARGIN + GRID_SPACING * 2
       + (if first is Some _ then test_width + 2 * MARGIN else 0);
     test_column_height := test_column_height;
     img_height := Z.max (column_height train) test_column_height + MARGIN |}.

(** Where the blank grid of the test column starts, and what the test column
    draws, given the value [example2_output_y] left by the drawing loop. *)
Definition blank_y (t : Example) (example2_output_y : option Z) : Z :=
  match example2_output_y with
  | Some y => y
  | None =>
      MARGIN + LABEL_HEIGHT + LABEL_HEIGHT
      + (grid_size (dict_get t "input" [])).2 * (CELL_SIZE + GRID_PADDING)
      + GRID_SPACING + LABEL_HEIGHT
  end.

Definition test_column_ops (test_x : Z) (t : Example)
    (example2_output_y : option Z) : list draw_op :=
  [ Text (test_x, MARGIN) "Test" (0, 0, 0);
    Text (test_x, MARGIN + LABEL_HEIGHT) "Input" (0, 0, 0) ]
  ++ grid_cells (dict_get t "input" []) test_x
       (MARGIN + LABEL_HEIGHT + LABEL_HEIGHT) CELL_SIZE GRID_PADDING
  ++ [ Text (test_x, blank_y t example2_output_y - LABEL_HEIGHT) "Output"
         (0, 0, 0) ]
  ++ blank_cells (blank_size t).1 (blank_size t).2 test_x
       (blank_y t example2_output_y) CELL_SIZE GRID_PADDING.

(** The single column of the test image: the labels, the test input grid,
    a grid spacing, and a blank grid of [width] by [height] cells. *)
Definition test_image_layout (test_input : Grid) (width height : Z)
    (img : Image) : Prop :=
  let input_y := MARGIN + LABEL_HEIGHT + LABEL_HEIGHT in
  let output_label_y :=
    input_y + (grid_size test_input).2 * (CELL_SIZE + GRID_PADDING)
    + GRID_SPACING in
  ops img =
    [ Text (MARGIN, MARGIN) "Test" (0, 0, 0);
      Text (MARGIN, MARGIN + LABEL_HEIGHT) "Input" (0, 0, 0) ]
    ++ grid_cells test_input MARGIN input_y CELL_SIZE GRID_PADDING
    ++ [ Text (MARGIN, output_label_y) "Output" (0, 0, 0) ]
    ++ blank_cells width height MARGIN (output_label_y + LABEL_HEIGHT)
         CELL_SIZE GRID_PADDING.

(** ** Sample documents *)

Definition doc_roundtrip : Document :=
  {[ "train" := [ {[ "input" := [[1]]; "output" := [[2]] ]} ];
     "test" := [ {[ "input" := [[3]] ]} ] ]}.

(** Two training pairs and a test pair without output. *)
Definition doc_two_pairs : Document :=
  {[ "train" := [ {[ "input" := [[1]]; "output" := [[2]] ]};
                  {[ "input" := [[3]]; "output" := [[4]] ]} ];
     "test" := [ {[ "input" := [[5]] ]} ] ]}.

(** A test pair whose ["input"] key holds a grid without rows. *)
Definition doc_empty_input : Document :=
  {[ "test" := [ {[ "input" := [] ]} ] ]}.

(** A test pair whose ["output"] key holds a grid without rows. *)
Definition doc_empty_output : Document :=
  {[ "test" := [ {[ "input" := [[1]]; "output" := [] ]} ] ]}.

(** Two small training pairs and a test pair whose output has ten rows. *)
Definition doc_tall_output : Document :=
  {[ "train" := [ {[ "input" := [[1]]; "output" := [[2]] ]};
                  {[ "input" := [[3]]; "output" := [[4]] ]} ];
     "test" := [ {[ "input" := [[5]];
                    "output" := [[0]; [0]; [0]; [0]; [0];
                                 [0]; [0]; [0]; [0]; [0]] ]} ] ]}.

(** A test pair and no training pairs. *)
Definition doc_no_train : Document :=
  {[ "test" := [ {[ "input" := [[3]] ]} ] ]}.

(** A file system on which every write succeeds. *)
Definition save_ok (img : Image) (path : string) : result unit := Ok ().

(** ** Predicates on grids and drawings *)

(** A rectangle lies on the pixels of a canvas of size [sz]: PIL boxes are
    inclusive and the pixels run from 0 to width - 1 and height - 1.  Labels
    are not rectangles. *)
Definition inside (sz : Z * Z) (op : draw_op) : Prop :=
  match op with
  | Rectangle (x0, y0, x1, y1) _ _ =>
      0 <= x0 /\ x0 <= x1 /\ x1 < sz.1 /\ 0 <= y0 /\ y0 <= y1 /\ y1 < sz.2
  | Text _ _ _ => True
  end.

(** Every row is as long as the first one. *)
Definition rectangular (grid : Grid) : Prop :=
  Forall (fun row => len row = (grid_size grid).1) grid.

(** Every cell is one of the ten colour indices. *)
Definition valid_cells (grid : Grid) : Prop :=
  Forall (Forall (fun color_id => 0 <= color_id <= 9)) grid.

(** Two rectangles share a pixel. *)
Definition overlap (a b : draw_op) : Prop :=
  match a, b with
  | Rectangle (ax0, ay0, ax1, ay1) _ _, Rectangle (bx0, by0, bx1, by1) _ _ =>
      ax0 <= bx1 /\ bx0 <= ax1 /\ ay0 <= by1 /\ by0 <= ay1
  | _, _ => False
  end.

(** No two rectangles of the drawing share a pixel. *)
Definition apart (l : list draw_op) : Prop :=
  forall (i j : nat) (a b : draw_op),
    i <> j -> l !! i = Some a -> l !! j = Some b -> ~ overlap a b.

(** A rectangle lies in the region from [(rx0, ry0)] to [(rx1, ry1)], both
    included. *)
Definition within (rx0 ry0 rx1 ry1 : Z) (op : draw_op) : Prop :=
  match op with
  | Rectangle (x0, y0, x1, y1) _ _ =>
      rx0 <= x0 /\ x1 <= rx1 /\ ry0 <= y0 /\ y1 <= ry1
  | Text _ _ _ => True
  end.

(** The styles the program uses: a label is black; a rectangle is either a
    grid cell, outlined in (100, 100, 100) and filled with a colour of the
    table, or a blank cell, white and outlined in (200, 200, 200). *)
Definition styled (op : draw_op) : Prop :=
  match op with
  | Rectangle _ fill outline =>
      (outline = (100, 100, 100)
       /\ exists color_id, 0 <= color_id <= 9
                           /\ ARC_COLORS !! color_id = Some fill)
      \/ (outline = (200, 200, 200) /\ fill = (255, 255, 255))
  | Text _ _ fill => fill = (0, 0, 0)
  end.

(** The same primitive, moved [dx] pixels to the right. *)
Definition shift_right (dx : Z) (op : draw_op) : draw_op :=
  match op with
  | Rectangle (x0, y0, x1, y1) fill outline =>
      Rectangle (x0 + dx, y0, x1 + dx, y1) fill outline
  | Text (x, y) text fill => Text (x + dx, y) text fill
  end.

(** * Properties *)

(** ** The error monad and the built-ins *)

Lemma bind_Ok {A B} (a : A) (f : A -> result B) : Ok a ≫= f = f a.
Proof. done. Qed.

Lemma bind_Raise {A B} (e : exn) (f : A -> result B) :
  Raise e ≫= f = Raise e.
Proof. done. Qed.

Lemma emit_nil img : emit img [] = img.
Proof. destruct img; unfold emit; simpl. by rewrite app_nil_r. Qed.

Lemma emit_emit img a b : emit (emit img a) b = emit img (a ++ b).
Proof. unfold emit; simpl. by rewrite app_assoc. Qed.

Lemma ops_emit img a : ops (emit img a) = ops img ++ a.
Proof. done. Qed.

Lemma size_emit img a : size (emit img a) = size img.
Proof. done. Qed.

Lemma len_nonneg {A} (l : list A) : 0 <= len l.
Proof. unfold len; lia. Qed.

Lemma index_nat {A} (l : list A) (i : nat) (a : A) :
  l !! i = Some a -> index l (Z.of_nat i) = Ok a.
Proof.
  intros Hl. unfold index.
  destruct (Z.ltb_spec (Z.of_nat i) 0) as [?|_]; [lia|].
  destruct (Z.ltb_spec (Z.of_nat i) 0) as [?|_]; [lia|].
  by rewrite Nat2Z.id, Hl.
Qed.

Lemma index_0 {A} (a : A) (l : list A) : index (a :: l) 0 = Ok a.
Proof. apply (index_nat (a :: l) 0%nat). done. Qed.

Lemma for_each_cons {A S} (a : A) (l : list A) (s : S)
    (body : A -> S -> result S) :
  for_each (a :: l) s body = body a s ≫= (fun s' => for_each l s' body).
Proof. done. Qed.

(** A loop whose body only draws has drawn, at its end, what each iteration
    draws, in order. *)
Lemma for_each_emit {A} (l : list A) (f : A -> list draw_op)
    (body : A -> Image -> result Image) (draw : Image) :
  (forall a d, a ∈ l -> body a d = Ok (emit d (f a))) ->
  for_each l draw body = Ok (emit draw (l ≫= f)).
Proof.
  revert draw. induction l as [|a l IH]; intros draw Hbody; simpl.
  - by rewrite emit_nil.
  - rewrite Hbody by left. simpl.
    rewrite IH by (intros; apply Hbody; by right).
    by rewrite emit_emit.
Qed.

Lemma range_bind {B} (n : Z) (f : Z -> list B) :
  range n ≫= f = seq 0 (Z.to_nat n) ≫= (fun i => f (Z.of_nat i)).
Proof.
  unfold range. induction (seq 0 (Z.to_nat n)) as [|i l IH]; [done|].
  by rewrite fmap_cons, !bind_cons, IH.
Qed.

Lemma elem_of_range (n i : Z) :
  i ∈ range n -> exists k : nat, i = Z.of_nat k /\ (k < Z.to_nat n)%nat.
Proof.
  unfold range. intros (k & -> & Hk)%list_elem_of_fmap.
  exists k. split; [done|]. apply elem_of_seq in Hk. lia.
Qed.

(** ** Grids *)

Lemma length_row {A} (f : nat -> A) (k w : nat) :
  length (seq k w ≫= (fun x => [f x])) = w.
Proof.
  revert k. induction w as [|w IHw]; intros k; [done|].
  rewrite <- cons_seq, bind_cons. simpl. by rewrite IHw.
Qed.

Lemma length_cells (paint : nat -> nat -> draw_op) w h : length (cells paint w h) = (h * w)%nat.
Proof.
  unfold cells. induction h as [|h IH]; [done|].
  rewrite seq_S, bind_app, length_app, IH. simpl.
  rewrite app_nil_r, length_row. lia.
Qed.

Lemma lookup_row {A} (paint : nat -> nat -> A) (y w x : nat) :
  (x < w)%nat -> (seq 0 w ≫= (fun x => [paint y x])) !! x = Some (paint y x).
Proof.
  intros Hx.
  replace (seq 0 w ≫= (fun x => [paint y x])) with (paint y <$> seq 0 w).
  - by rewrite list_lookup_fmap, lookup_seq_lt.
  - induction (seq 0 w) as [|a l IH]; [done|].
    by rewrite fmap_cons, bind_cons, IH.
Qed.

(** Cell [(y, x)] is the [(y * width + x)]-th rectangle of the block. *)
Lemma lookup_cells (paint : nat -> nat -> draw_op) (w h y x : nat) :
  (y < h)%nat -> (x < w)%nat ->
  cells paint w h !! (y * w + x)%nat = Some (paint y x).
Proof.
  induction h as [|h IH]; [lia|]. intros Hy Hx.
  unfold cells in *. rewrite seq_S, bind_app. simpl. rewrite app_nil_r.
  pose proof (length_cells paint w h) as Hlen. unfold cells in Hlen.
  destruct (decide (y < h)%nat) as [Hlt|Hge].
  - rewrite lookup_app_l by (rewrite Hlen; nia). by apply IH.
  - assert (y = h) as -> by lia.
    rewrite lookup_app_r by (rewrite Hlen; lia).
    rewrite Hlen. replace (h * w + x - h * w)%nat with x by lia.
    by apply lookup_row.
Qed.

Lemma elem_of_cells (paint : nat -> nat -> draw_op) (w h : nat) (op : draw_op) :
  op ∈ cells paint w h ->
  exists y x, (y < h)%nat /\ (x < w)%nat /\ op = paint y x.
Proof.
  unfold cells. intros (y & Hop & Hy)%list_elem_of_bind.
  apply list_elem_of_bind in Hop as (x & Hop & Hx).
  apply list_elem_of_singleton in Hop.
  apply elem_of_seq in Hy, Hx. exists y, x. repeat split; [lia|lia|done].
Qed.

Lemma get_grid_size_ok (grid : Grid) : get_grid_size grid = Ok (grid_size grid).
Proof.
  destruct grid as [|row grid]; [done|].
  unfold get_grid_size, grid_size. simpl truthy. simpl negb.
  destruct (Z.eqb_spec (len (row :: grid)) 0) as [H0|_].
  { unfold len in H0. simpl in H0. lia. }
  destruct (Z.ltb_spec 0 (len (row :: grid))) as [_|H0].
  - by rewrite index_0.
  - unfold len in H0. simpl in H0. lia.
Qed.

Lemma black_present : subscript ARC_COLORS 0 "0" = Ok (0, 0, 0).
Proof. reflexivity. Qed.

(** The guarded read [grid[y][x] if y < len(grid) and x < len(grid[y]) else 0]
    never raises inside the grid's rows and yields [cell_id]. *)
Lemma guarded_read (grid : Grid) (y x : nat) :
  (y < length grid)%nat ->
  (in_bounds ← (if Z.of_nat y <? len grid
                then row ← index grid (Z.of_nat y); Ok (Z.of_nat x <? len row)
                else Ok false);
   if in_bounds : bool
   then row ← index grid (Z.of_nat y); index row (Z.of_nat x)
   else Ok 0) = Ok (cell_id grid y x).
Proof.
  intros Hy. unfold cell_id.
  destruct (lookup_lt_is_Some_2 grid y Hy) as [row Hrow].
  destruct (Z.ltb_spec (Z.of_nat y) (len grid)) as [_|?]; [|unfold len in *; lia].
  rewrite Hrow, (index_nat grid y row Hrow). simpl.
  destruct (Z.ltb_spec (Z.of_nat x) (len row)) as [Hx|Hx]; simpl.
  - destruct (lookup_lt_is_Some_2 row x) as [c Hc]; [unfold len in Hx; lia|].
    by rewrite Hc, (index_nat row x c Hc).
  - rewrite lookup_ge_None_2; [done|]. unfold len in Hx; lia.
Qed.

(** [draw_grid] never raises and draws exactly [grid_cells]. *)
Lemma draw_grid_ok draw (grid : Grid) x_offset y_offset cell_size grid_padding :
  draw_grid draw grid x_offset y_offset cell_size grid_padding
  = Ok (emit draw (grid_cells grid x_offset y_offset cell_size grid_padding)).
Proof.
  destruct grid as [|row0 rest]; [by rewrite emit_nil|].
  set (grid := row0 :: rest).
  unfold draw_grid, grid_cells. simpl truthy. simpl negb.
  destruct (Z.eqb_spec (len grid) 0) as [H0|_].
  { unfold len in H0. simpl in H0. lia. }
  destruct (Z.ltb_spec 0 (len grid)) as [_|H0];
    [|unfold len in H0; simpl in H0; lia].
  simpl orb. cbv iota.
  assert (index grid 0 = Ok row0) as -> by apply index_0.
  rewrite !bind_Ok.
  assert (grid_size grid = (len row0, len grid)) as -> by done.
  simpl fst. simpl snd.
  set (paint := fun y x : nat =>
    Rectangle (cell_box x_offset y_offset cell_size grid_padding y x)
      (cell_color grid y x) (100, 100, 100)).
  rewrite (for_each_emit _
    (fun y => range (len row0) ≫= (fun x => [paint (Z.to_nat y) (Z.to_nat x)]))).
  - f_equal. f_equal. unfold cells. rewrite range_bind.
    apply list_bind_ext; [|done]. intros y. rewrite range_bind.
    apply list_bind_ext; [|done]. intros x. by rewrite !Nat2Z.id.
  - intros y d (ky & -> & Hky)%elem_of_range.
    apply for_each_emit.
    intros x d' (kx & -> & Hkx)%elem_of_range.
    assert (ky < length grid)%nat as Hy by (unfold len in Hky; lia).
    pose proof (guarded_read grid ky kx Hy) as Hread.
    destruct (if Z.of_nat ky <? len grid
              then row ← index grid (Z.of_nat ky); Ok (Z.of_nat kx <? len row)
              else Ok false) as [b|e]; [|discriminate Hread].
    rewrite bind_Ok in Hread. rewrite bind_Ok, Hread, bind_Ok.
    rewrite black_present, bind_Ok.
    unfold paint, cell_box, cell_color, draw_rectangle. by rewrite !Nat2Z.id.
Qed.

(** [draw_blank_grid] never raises and draws exactly [blank_cells]. *)
Lemma draw_blank_grid_ok draw width height x_offset y_offset cell_size grid_padding :
  draw_blank_grid draw width height x_offset y_offset cell_size grid_padding
  = Ok (emit draw
          (blank_cells width height x_offset y_offset cell_size grid_padding)).
Proof.
  unfold draw_blank_grid, blank_cells.
  set (paint := fun y x : nat =>
    Rectangle (cell_box x_offset y_offset cell_size grid_padding y x)
      (255, 255, 255) (200, 200, 200)).
  rewrite (for_each_emit _
    (fun y => range width ≫= (fun x => [paint (Z.to_nat y) (Z.to_nat x)]))).
  - f_equal. f_equal. unfold cells. rewrite range_bind.
    apply list_bind_ext; [|done]. intros y. rewrite range_bind.
    apply list_bind_ext; [|done]. intros x. by rewrite !Nat2Z.id.
  - intros y d (ky & -> & Hky)%elem_of_range.
    apply for_each_emit.
    intros x d' (kx & -> & Hkx)%elem_of_range.
    unfold paint, cell_box, draw_rectangle. by rewrite !Nat2Z.id.
Qed.

Lemma ARC_COLORS_outside (c : Z) : c < 0 \/ 9 < c -> ARC_COLORS !! c = None.
Proof.
  intros Hc. unfold ARC_COLORS. apply not_elem_of_list_to_map_1.
  simpl. rewrite !elem_of_cons, elem_of_nil. lia.
Qed.

(** C2: [get_grid_size] returns [(0, 0)] for a grid without rows, also when
    the key holding the grid is missing, and otherwise the length of the first
    row and the number of rows; no exception is raised, whatever the lengths
    of the other rows. *)
Theorem get_grid_size_contract :
  get_grid_size [] = Ok (0, 0)
  /\ (forall (obj : gmap string Grid) (key : string),
        obj !! key = None -> get_grid_size (dict_get obj key []) = Ok (0, 0))
  /\ (forall (row : list Z) (rest : Grid),
        get_grid_size (row :: rest) = Ok (len row, len (row :: rest))).
Proof.
  split; [done|]. split.
  - intros obj key Hkey. unfold dict_get. by rewrite Hkey.
  - intros row rest. by rewrite get_grid_size_ok.
Qed.

Lemma get_grid_size_contract_witness :
  get_grid_size (dict_get ({[ "input" := [[3]] ]} : gmap string Grid) "output" [])
  = Ok (0, 0)
  /\ get_grid_size [[1; 2; 3]; [4]; []; [5; 6; 7; 8]] = Ok (3, 4).
Proof.
  destruct get_grid_size_contract as (_ & Habsent & Hrows). split.
  - apply Habsent. reflexivity.
  - apply (Hrows [1; 2; 3] [[4]; []; [5; 6; 7; 8]]).
Defined.

(** C7: [draw_grid] never raises.  The cell at row [y], column [x] (columns
    counted up to the width of the first row) is the rectangle number
    [y * width + x] that it draws; whenever the row is too short to hold
    column [x], or holds there an index outside 0..9, the rectangle is filled
    with the colour of index 0, black. *)
Theorem draw_grid_fallback_black :
  ARC_COLORS !! 0 = Some (0, 0, 0)
  /\ forall draw (grid : Grid) x_offset y_offset cell_size grid_padding,
       exists img,
         draw_grid draw grid x_offset y_offset cell_size grid_padding = Ok img
         /\ forall (y x : nat) (row0 row : list Z),
              grid !! 0%nat = Some row0 ->
              grid !! y = Some row ->
              (x < length row0)%nat ->
              match row !! x with
              | Some color_id => color_id < 0 \/ 9 < color_id
              | None => True
              end ->
              ops img !! (length (ops draw) + (y * length row0 + x))%nat
              = Some (Rectangle
                        (cell_box x_offset y_offset cell_size grid_padding y x)
                        (0, 0, 0) (100, 100, 100)).
Proof.
  split; [reflexivity|].
  intros draw grid xo yo cs gp. eexists. split; [apply draw_grid_ok|].
  intros y x row0 row H0 Hy Hx Hbad.
  rewrite ops_emit, lookup_app_r by lia.
  replace (length (ops draw) + (y * length row0 + x) - length (ops draw))%nat
    with (y * length row0 + x)%nat by lia.
  unfold grid_cells.
  assert (grid_size grid = (len row0, len grid)) as ->.
  { destruct grid; [done|]. by injection H0 as ->. }
  simpl fst. simpl snd. unfold len. rewrite !Nat2Z.id.
  rewrite lookup_cells; [|by eapply lookup_lt_Some|done].
  do 2 f_equal. unfold cell_color, cell_id. rewrite Hy.
  destruct (row !! x) as [c|]; simpl; [|reflexivity].
  unfold dict_get. by rewrite ARC_COLORS_outside.
Qed.

Lemma draw_grid_fallback_black_witness :
  exists img,
    draw_grid (Image_new (0, 0) (255, 255, 255)) [[1; 12]; [3]] 20 80 20 0
    = Ok img
    /\ ops img !! 1%nat = Some (Rectangle (40, 80, 59, 99) (0, 0, 0) (100, 100, 100))
    /\ ops img !! 3%nat = Some (Rectangle (40, 100, 59, 119) (0, 0, 0) (100, 100, 100)).
Proof.
  destruct draw_grid_fallback_black as [_ H].
  destruct (H (Image_new (0, 0) (255, 255, 255)) [[1; 12]; [3]] 20 80 20 0)
    as (img & Himg & Hcells).
  exists img. split; [exact Himg|]. split.
  - apply (Hcells 0%nat 1%nat [1; 12] [1; 12]);
      [reflexivity|reflexivity|simpl; lia|simpl; lia].
  - apply (Hcells 1%nat 1%nat [1; 12] [3]);
      [reflexivity|reflexivity|simpl; lia|exact I].
Defined.

(** ** The column of training examples *)

Lemma process_train_example_ok (i : Z) (example : Example) (w h : Z)
    (acc : list TrainInfo.t) :
  process_train_example (i, example) (w, h, acc)
  = Ok (Z.max w (example_width example),
        h + (example_height example + LABEL_HEIGHT * 2 + GRID_SPACING),
        acc ++ [example_info i example]).
Proof.
  unfold process_train_example. rewrite !get_grid_size_ok.
  unfold example_width, example_height, example_info. simpl TrainInfo.height.
  destruct (grid_size (dict_get example "input" [])) as [iw ih].
  destruct (grid_size (dict_get example "output" [])) as [ow oh].
  done.
Qed.

Lemma process_train_examples_from (train : list Example) (start w h : Z)
    (acc : list TrainInfo.t) :
  0 <= w ->
  for_each (enumerate_from start train) (w, h, acc) process_train_example
  = Ok (Z.max w (column_width train), h + column_height train,
        acc ++ infos_from start train).
Proof.
  revert start w h acc.
  induction train as [|example train IH]; intros start w h acc Hw.
  - simpl. rewrite app_nil_r. do 3 f_equal; lia.
  - cbn [enumerate_from].
    rewrite for_each_cons, process_train_example_ok, bind_Ok, IH by lia.
    rewrite <- app_assoc. simpl. do 3 f_equal; lia.
Qed.

Lemma process_train_examples_ok (train : list Example) :
  process_train_examples train
  = Ok (column_width train, column_height train, infos_from 0 train).
Proof.
  unfold process_train_examples, enumerate.
  rewrite process_train_examples_from by lia. do 3 f_equal.
  induction train; simpl; lia.
Qed.

Lemma draw_train_example_ok (info : TrainInfo.t) draw (y_pos : Z)
    (seen : option Z) :
  draw_train_example info (draw, y_pos, seen)
  = Ok (emit draw (example_ops info y_pos), next_y info y_pos,
        if TrainInfo.index info =? 1
        then Some (y_pos + LABEL_HEIGHT + LABEL_HEIGHT)
        else seen).
Proof.
  unfold draw_train_example, example_ops, next_y.
  destruct (TrainInfo.input_size info) as [iw ih].
  destruct (TrainInfo.output_size info) as [ow oh].
  rewrite !draw_grid_ok, !bind_Ok. unfold draw_text.
  rewrite !draw_grid_ok, !bind_Ok, !emit_emit.
  by rewrite <- ?app_assoc.
Qed.

Lemma draw_train_examples_ok (infos : list TrainInfo.t) draw (y_pos : Z)
    (seen : option Z) :
  for_each infos (draw, y_pos, seen) draw_train_example
  = Ok (emit draw (train_ops infos y_pos), last_y infos y_pos,
        tracked infos y_pos seen).
Proof.
  revert draw y_pos seen.
  induction infos as [|info infos IH]; intros draw y_pos seen.
  - simpl. by rewrite emit_nil.
  - rewrite for_each_cons, draw_train_example_ok, bind_Ok, IH.
    by rewrite emit_emit.
Qed.

Lemma draw_example_ok (info : TrainInfo.t) draw (y_pos : Z) :
  draw_example info (draw, y_pos)
  = Ok (emit draw (example_ops info y_pos), next_y info y_pos).
Proof.
  unfold draw_example, example_ops, next_y.
  destruct (TrainInfo.input_size info) as [iw ih].
  destruct (TrainInfo.output_size info) as [ow oh].
  rewrite !draw_grid_ok, !bind_Ok. unfold draw_text.
  rewrite !draw_grid_ok, !bind_Ok, !emit_emit.
  by rewrite <- ?app_assoc.
Qed.

Lemma draw_examples_ok (infos : list TrainInfo.t) draw (y_pos : Z) :
  for_each infos (draw, y_pos) draw_example
  = Ok (emit draw (train_ops infos y_pos), last_y infos y_pos).
Proof.
  revert draw y_pos.
  induction infos as [|info infos IH]; intros draw y_pos.
  - simpl. by rewrite emit_nil.
  - rewrite for_each_cons, draw_example_ok, bind_Ok, IH.
    by rewrite emit_emit.
Qed.

(** The image built by [create_examples_image] when there are training
    pairs. *)
Lemma create_examples_image_ok (data : Document) :
  let train := dict_get data "train" [] in
  train <> [] ->
  create_examples_image data
  = Ok {| size := (column_width train + 2 * MARGIN,
                   column_height train + MARGIN);
          background := (255, 255, 255);
          ops := train_ops (infos_from 0 train) MARGIN |}.
Proof.
  intros train Htrain. unfold create_examples_image. fold train.
  destruct train as [|e train'] eqn:Heq; [done|]. rewrite <- Heq.
  assert (truthy train = true) as -> by (by rewrite Heq).
  simpl negb. cbv iota.
  rewrite process_train_examples_ok, bind_Ok.
  by rewrite draw_examples_ok, bind_Ok.
Qed.

(** ** The test column and the puzzle image *)

Lemma process_test_input_ok (test : list Example) :
  process_test_input test
  = Ok (first_test_info <$> head test, test_width (puzzle_layout_of [] (head test))).
Proof.
  destruct test as [|t rest]; [done|].
  unfold process_test_input. simpl truthy.
  destruct (Z.ltb_spec 0 (len (t :: rest))) as [_|H0];
    [|unfold len in H0; simpl in H0; lia].
  simpl andb. cbv iota. rewrite !index_0, !bind_Ok. cbv zeta.
  rewrite !get_grid_size_ok, bind_Ok.
  change (first_test_info <$> head (t :: rest))
    with (Some (first_test_info t)).
  simpl test_width. unfold first_test_info, blank_size.
  destruct (grid_size (dict_get t "input" [])) as [tw th].
  destruct (truthy (dict_get t "output" [])).
  - rewrite bind_Ok.
    by destruct (grid_size (dict_get t "output" [])) as [ow oh].
  - by rewrite bind_Ok.
Qed.

Lemma compute_puzzle_layout_ok (train test : list Example) :
  compute_puzzle_layout train test = Ok (puzzle_layout_of train (head test)).
Proof.
  unfold compute_puzzle_layout.
  rewrite process_train_examples_ok, bind_Ok, process_test_input_ok, bind_Ok.
  by destruct (head test).
Qed.

Lemma draw_test_column_ok draw (train : list Example) (t : Example)
    (seen : option Z) :
  draw_test_column draw (puzzle_layout_of train (Some t)) seen
  = Ok (emit draw
          (test_column_ops
             (left_column_width (puzzle_layout_of train (Some t))
              + column_spacing (puzzle_layout_of train (Some t)) + MARGIN)
             t seen)).
Proof.
  unfold draw_test_column, test_column_ops. simpl test_info.
  simpl left_column_width. simpl column_spacing.
  unfold first_test_info. simpl TestInfo.input. simpl TestInfo.output_size.
  simpl TestInfo.input_height.
  unfold draw_text. rewrite draw_grid_ok, bind_Ok.
  destruct (blank_size t) as [ow oh]. simpl fst. simpl snd.
  destruct seen as [y|]; simpl blank_y.
  - rewrite draw_blank_grid_ok, !emit_emit. by rewrite <- ?app_assoc.
  - rewrite draw_blank_grid_ok, !emit_emit.
    match goal with
    | |- context [?a + LABEL_HEIGHT - LABEL_HEIGHT] =>
        replace (a + LABEL_HEIGHT - LABEL_HEIGHT) with a by lia
    end.
    done.
Qed.

(** The image built by [create_puzzle_image] when there is something to
    show. *)
Lemma create_puzzle_image_ok (data : Document) :
  let train := dict_get data "train" [] in
  let test := dict_get data "test" [] in
  let L := puzzle_layout_of train (head test) in
  train <> [] \/ test <> [] ->
  create_puzzle_image data
  = Ok {| size := (img_width L, img_height L);
          background := (255, 255, 255);
          ops :=
            train_ops (infos_from 0 train) MARGIN
            ++ match head test with
               | Some t =>
                   test_column_ops
                     (left_column_width L + column_spacing L + MARGIN) t
                     (tracked (infos_from 0 train) MARGIN None)
               | None => []
               end |}.
Proof.
  intros train test L Hdata. unfold create_puzzle_image. fold train. fold test.
  assert (negb (truthy train) && negb (truthy test) = false) as ->.
  { destruct train, test; try done. by destruct Hdata. }
  rewrite compute_puzzle_layout_ok, bind_Ok. fold L.
  assert (train_info L = infos_from 0 train) as -> by done.
  rewrite draw_train_examples_ok, bind_Ok.
  subst L. destruct (head test) as [t|] eqn:Hhead.
  - rewrite draw_test_column_ok. unfold emit, Image_new. simpl.
    by rewrite <- ?app_assoc.
  - unfold draw_test_column. simpl test_info. unfold emit, Image_new. simpl.
    by rewrite app_nil_r.
Qed.

Lemma tracked_later (train : list Example) (start y_pos : Z) (seen : option Z) :
  1 < start -> tracked (infos_from start train) y_pos seen = seen.
Proof.
  revert start y_pos. induction train as [|e train IH]; intros start y_pos Hs.
  - done.
  - simpl. destruct (Z.eqb_spec start 1) as [?|_]; [lia|].
    apply IH. lia.
Qed.

(** C1: in the puzzle image of a document with a test pair, when there are
    at least two training pairs the blank test output grid starts at the same
    vertical offset as the output grid of Example 2 (the pair of index 1),
    and its "Output" label sits one label height above, at the height of
    Example 2's "Output" label; with fewer than two training pairs the
    "Output" label comes one grid spacing below the test input grid and the
    blank grid one label height below the label. *)
Theorem puzzle_test_output_alignment (data : Document) (t : Example)
    (tests : list Example) :
  dict_get data "test" [] = t :: tests ->
  let train := dict_get data "train" [] in
  let test_x := column_width train + 2 * MARGIN + GRID_SPACING * 2 + MARGIN in
  let test_input := dict_get t "input" [] in
  let test_head :=
    [ Text (test_x, MARGIN) "Test" (0, 0, 0);
      Text (test_x, MARGIN + LABEL_HEIGHT) "Input" (0, 0, 0) ]
    ++ grid_cells test_input test_x (MARGIN + LABEL_HEIGHT + LABEL_HEIGHT)
         CELL_SIZE GRID_PADDING in
  exists img,
    create_puzzle_image data = Ok img
    /\ (forall (e1 e2 : Example) (rest : list Example),
          train = e1 :: e2 :: rest ->
          let y_pos := MARGIN + LABEL_HEIGHT + LABEL_HEIGHT
                       + example_height e1 + GRID_SPACING in
          let output_y := y_pos + LABEL_HEIGHT + LABEL_HEIGHT in
          let output_x :=
            MARGIN
            + (grid_size (dict_get e2 "input" [])).1 * (CELL_SIZE + GRID_PADDING)
            + GRID_SPACING in
          ops img =
            example_ops (example_info 0 e1) MARGIN
            ++ [ Text (MARGIN, y_pos) "Example 2" (0, 0, 0);
                 Text (MARGIN, y_pos + LABEL_HEIGHT) "Input" (0, 0, 0) ]
            ++ grid_cells (dict_get e2 "input" []) MARGIN output_y
                 CELL_SIZE GRID_PADDING
            ++ [ Text (output_x, output_y - LABEL_HEIGHT) "Output" (0, 0, 0) ]
            ++ grid_cells (dict_get e2 "output" []) output_x output_y
                 CELL_SIZE GRID_PADDING
            ++ train_ops (infos_from 2 rest)
                 (output_y + example_height e2 + GRID_SPACING)
            ++ test_head
            ++ [ Text (test_x, output_y - LABEL_HEIGHT) "Output" (0, 0, 0) ]
            ++ blank_cells (blank_size t).1 (blank_size t).2 test_x output_y
                 CELL_SIZE GRID_PADDING)
    /\ ((length train < 2)%nat ->
        let below_input :=
          MARGIN + LABEL_HEIGHT + LABEL_HEIGHT
          + (grid_size test_input).2 * (CELL_SIZE + GRID_PADDING)
          + GRID_SPACING in
        ops img =
          train_ops (infos_from 0 train) MARGIN
          ++ test_head
          ++ [ Text (test_x, below_input) "Output" (0, 0, 0) ]
          ++ blank_cells (blank_size t).1 (blank_size t).2 test_x
               (below_input + LABEL_HEIGHT) CELL_SIZE GRID_PADDING).
Proof.
  intros Htest train test_x test_input test_head.
  eexists. split.
  { apply create_puzzle_image_ok. right. rewrite Htest. done. }
  cbn [ops]. rewrite Htest. cbn [head]. fold train.
  cbn [left_column_width column_spacing puzzle_layout_of]. fold test_x.
  split.
  - intros e1 e2 rest Htrain. rewrite Htrain.
    cbn [infos_from train_ops tracked].
    change (TrainInfo.index (example_info 0 e1) =? 1) with false.
    change (TrainInfo.index (example_info (0 + 1) e2) =? 1) with true.
    cbv iota. rewrite tracked_later by lia.
    unfold test_column_ops. cbn [blank_y]. fold test_input. fold test_head.
    rewrite <- !app_assoc. f_equal.
    unfold example_ops, next_y.
    cbn [TrainInfo.index TrainInfo.input TrainInfo.output TrainInfo.input_size
         TrainInfo.height example_info fst snd].
    change (Z.max (grid_size (dict_get e1 "input" [])).2
                  (grid_size (dict_get e1 "output" [])).2
            * (CELL_SIZE + GRID_PADDING)) with (example_height e1).
    change (Z.max (grid_size (dict_get e2 "input" [])).2
                  (grid_size (dict_get e2 "output" [])).2
            * (CELL_SIZE + GRID_PADDING)) with (example_height e2).
    change ("Example " +:+ format_int (0 + 1 + 1)) with "Example 2".
    change (0 + 1 + 1) with 2.
    set (y_pos := MARGIN + LABEL_HEIGHT + LABEL_HEIGHT + example_height e1
                  + GRID_SPACING).
    replace (y_pos + LABEL_HEIGHT + LABEL_HEIGHT - LABEL_HEIGHT)
      with (y_pos + LABEL_HEIGHT) by lia.
    by rewrite <- ?app_assoc.
  - intros Hlen.
    assert (tracked (infos_from 0 train) MARGIN None = None) as ->.
    { destruct train as [|e1 [|e2 rest]]; [done|done|simpl in Hlen; lia]. }
    unfold test_column_ops. cbn [blank_y]. fold test_input. fold test_head.
    set (below_input := MARGIN + LABEL_HEIGHT + LABEL_HEIGHT
           + (grid_size test_input).2 * (CELL_SIZE + GRID_PADDING)
           + GRID_SPACING).
    replace (below_input + LABEL_HEIGHT - LABEL_HEIGHT) with below_input by lia.
    by rewrite <- ?app_assoc.
Qed.

Lemma puzzle_test_output_alignment_witness :
  exists img,
    create_puzzle_image doc_two_pairs = Ok img
    /\ ops img =
         [ Text (20, 20) "Example 1" (0, 0, 0);
           Text (20, 50) "Input" (0, 0, 0);
           Rectangle (20, 80, 39, 99) (0, 116, 217) (100, 100, 100);
           Text (60, 50) "Output" (0, 0, 0);
           Rectangle (60, 80, 79, 99) (255, 65, 54) (100, 100, 100);
           Text (20, 120) "Example 2" (0, 0, 0);
           Text (20, 150) "Input" (0, 0, 0);
           Rectangle (20, 180, 39, 199) (46, 204, 64) (100, 100, 100);
           Text (60, 150) "Output" (0, 0, 0);
           Rectangle (60, 180, 79, 199) (255, 220, 0) (100, 100, 100);
           Text (160, 20) "Test" (0, 0, 0);
           Text (160, 50) "Input" (0, 0, 0);
           Rectangle (160, 80, 179, 99) (170, 170, 170) (100, 100, 100);
           Text (160, 150) "Output" (0, 0, 0);
           Rectangle (160, 180, 179, 199) (255, 255, 255) (200, 200, 200) ].
Proof.
  destruct (puzzle_test_output_alignment doc_two_pairs
              {[ "input" := [[5]] ]} [] eq_refl) as (img & Himg & Haligned & _).
  exists img. split; [exact Himg|].
  rewrite (Haligned {[ "input" := [[1]]; "output" := [[2]] ]}
             {[ "input" := [[3]]; "output" := [[4]] ]} [] eq_refl).
  reflexivity.
Defined.

(** ** The test and answer images *)

Lemma create_test_image_ok (data : Document) (t : Example)
    (tests : list Example) :
  dict_get data "test" [] = t :: tests ->
  dict_get t "input" [] <> [] ->
  let test_input := dict_get t "input" [] in
  create_test_image data
  = Ok {| size :=
            (Z.max (grid_size test_input).1 (blank_size t).1
             * (CELL_SIZE + GRID_PADDING) + 2 * MARGIN,
             LABEL_HEIGHT + LABEL_HEIGHT
             + (grid_size test_input).2 * (CELL_SIZE + GRID_PADDING)
             + GRID_SPACING + LABEL_HEIGHT
             + (blank_size t).2 * (CELL_SIZE + GRID_PADDING) + MARGIN);
          background := (255, 255, 255);
          ops := test_column_ops MARGIN t None |}.
Proof.
  intros Htest Hin test_input. unfold create_test_image. rewrite Htest.
  simpl truthy.
  destruct (Z.eqb_spec (len (t :: tests)) 0) as [H0|_];
    [unfold len in H0; simpl in H0; lia|].
  simpl orb. cbv iota. rewrite !index_0, !bind_Ok. cbv zeta. fold test_input.
  destruct test_input as [|row rows] eqn:Hrows; [done|]. rewrite <- Hrows.
  assert (truthy test_input = true) as -> by (by rewrite Hrows).
  simpl negb. cbv iota. rewrite !get_grid_size_ok, bind_Ok.
  unfold test_column_ops, blank_y, blank_size. fold test_input.
  destruct (grid_size test_input) as [iw ih].
  assert ((if truthy (dict_get t "output" [])
           then Ok (grid_size (dict_get t "output" []))
           else Ok (iw, ih))
          = Ok (if truthy (dict_get t "output" [])
                then grid_size (dict_get t "output" [])
                else (iw, ih))) as -> by (by destruct (truthy _)).
  rewrite bind_Ok.
  destruct (if truthy (dict_get t "output" [])
            then grid_size (dict_get t "output" [])
            else (iw, ih)) as [ow oh].
  unfold draw_text. rewrite draw_grid_ok, bind_Ok, draw_blank_grid_ok.
  rewrite !emit_emit. unfold emit, Image_new. cbn [size background ops fst snd].
  match goal with
  | |- context [?a + LABEL_HEIGHT - LABEL_HEIGHT] =>
      replace (a + LABEL_HEIGHT - LABEL_HEIGHT) with a by lia
  end.
  done.
Qed.

Lemma create_test_image_no_input (data : Document) (t : Example)
    (tests : list Example) :
  dict_get data "test" [] = t :: tests ->
  dict_get t "input" [] = [] ->
  create_test_image data = Raise (ValueError "No test input found").
Proof.
  intros Htest Hin. unfold create_test_image. rewrite Htest. simpl truthy.
  destruct (Z.eqb_spec (len (t :: tests)) 0) as [H0|_];
    [unfold len in H0; simpl in H0; lia|].
  simpl orb. cbv iota. rewrite !index_0, !bind_Ok. cbv zeta.
  by rewrite Hin.
Qed.

Lemma create_test_image_no_test (data : Document) :
  dict_get data "test" [] = [] ->
  create_test_image data = Raise (ValueError "No test data found").
Proof. intros Htest. unfold create_test_image. by rewrite Htest. Qed.

Lemma create_answer_image_ok (data : Document) (t : Example)
    (tests : list Example) :
  dict_get data "test" [] = t :: tests ->
  dict_get t "output" [] <> [] ->
  let test_output := dict_get t "output" [] in
  create_answer_image data
  = Ok {| size :=
            ((grid_size test_output).1 * (CELL_SIZE + GRID_PADDING)
             + 2 * MARGIN,
             (grid_size test_output).2 * (CELL_SIZE + GRID_PADDING)
             + LABEL_HEIGHT + 2 * MARGIN);
          background := (255, 255, 255);
          ops :=
            Text (MARGIN, MARGIN) "Test Output" (0, 0, 0)
            :: grid_cells test_output MARGIN (MARGIN + LABEL_HEIGHT)
                 CELL_SIZE GRID_PADDING |}.
Proof.
  intros Htest Hout test_output. unfold create_answer_image. rewrite Htest.
  simpl truthy.
  destruct (Z.eqb_spec (len (t :: tests)) 0) as [H0|_];
    [unfold len in H0; simpl in H0; lia|].
  simpl orb. cbv iota. rewrite !index_0, !bind_Ok. cbv zeta. fold test_output.
  destruct test_output as [|row rows] eqn:Hrows; [done|]. rewrite <- Hrows.
  assert (negb (truthy test_output) || (len test_output =? 0) = false) as ->.
  { rewrite Hrows. simpl.
    destruct (Z.eqb_spec (len (row :: rows)) 0) as [H0|_]; [|done].
    unfold len in H0; simpl in H0; lia. }
  rewrite get_grid_size_ok, bind_Ok.
  destruct (grid_size test_output) as [ow oh].
  unfold draw_text. by rewrite draw_grid_ok, emit_emit.
Qed.

Lemma create_answer_image_no_output (data : Document) (t : Example)
    (tests : list Example) :
  dict_get data "test" [] = t :: tests ->
  dict_get t "output" [] = [] ->
  create_answer_image data = Raise (ValueError "No test output found").
Proof.
  intros Htest Hout. unfold create_answer_image. rewrite Htest. simpl truthy.
  destruct (Z.eqb_spec (len (t :: tests)) 0) as [H0|_];
    [unfold len in H0; simpl in H0; lia|].
  simpl orb. cbv iota. rewrite !index_0, !bind_Ok. cbv zeta.
  by rewrite Hout.
Qed.

Lemma create_answer_image_no_test (data : Document) :
  dict_get data "test" [] = [] ->
  create_answer_image data = Raise (ValueError "No test data found").
Proof. intros Htest. unfold create_answer_image. by rewrite Htest. Qed.

(** ** What the blank grid shows *)

Lemma blank_size_insert (t : Example) (out1 out2 : Grid) :
  get_grid_size out1 = get_grid_size out2 ->
  blank_size (<["output" := out1]> t) = blank_size (<["output" := out2]> t).
Proof.
  rewrite !get_grid_size_ok. intros [= Hsize].
  unfold blank_size, dict_get. rewrite !lookup_insert_eq.
  rewrite !lookup_insert_ne by done. simpl.
  destruct out1 as [|r1 o1], out2 as [|r2 o2]; simpl; done.
Qed.

Lemma input_insert_output (t : Example) (out : Grid) :
  dict_get (<["output" := out]> t) "input" [] = dict_get t "input" [].
Proof. unfold dict_get. by rewrite lookup_insert_ne. Qed.

Lemma test_column_ops_insert (test_x : Z) (t : Example) (out1 out2 : Grid)
    (seen : option Z) :
  get_grid_size out1 = get_grid_size out2 ->
  test_column_ops test_x (<["output" := out1]> t) seen
  = test_column_ops test_x (<["output" := out2]> t) seen.
Proof.
  intros Hsize. unfold test_column_ops, blank_y.
  by rewrite !input_insert_output, (blank_size_insert t out1 out2 Hsize).
Qed.

Lemma blank_cells_white width height x_offset y_offset cell_size grid_padding
    (op : draw_op) :
  op ∈ blank_cells width height x_offset y_offset cell_size grid_padding ->
  exists box, op = Rectangle box (255, 255, 255) (200, 200, 200).
Proof.
  unfold blank_cells. intros (y & x & _ & _ & ->)%elem_of_cells. by eexists.
Qed.

(** C4: [draw_blank_grid] is given dimensions only; it never raises and
    paints [height * width] rectangles, each white with outline
    (200, 200, 200).  Two documents that differ only in the grid stored as
    output of the first test pair, the two grids having the same size, get
    the same puzzle image and the same test image. *)
Theorem blank_output_hides_cells :
  (forall draw width height x_offset y_offset cell_size grid_padding,
     exists painted,
       draw_blank_grid draw width height x_offset y_offset cell_size
         grid_padding = Ok (emit draw painted)
       /\ length painted = (Z.to_nat height * Z.to_nat width)%nat
       /\ forall op, op ∈ painted ->
            exists box, op = Rectangle box (255, 255, 255) (200, 200, 200))
  /\ (forall (data : Document) (t : Example) (tests : list Example)
        (out1 out2 : Grid),
        get_grid_size out1 = get_grid_size out2 ->
        let data1 := <["test" := <["output" := out1]> t :: tests]> data in
        let data2 := <["test" := <["output" := out2]> t :: tests]> data in
        create_puzzle_image data1 = create_puzzle_image data2
        /\ create_test_image data1 = create_test_image data2).
Proof.
  split.
  - intros draw w h xo yo cs gp. eexists. split; [apply draw_blank_grid_ok|].
    split; [apply length_cells|]. apply blank_cells_white.
  - intros data t tests out1 out2 Hsize data1 data2.
    assert (dict_get data1 "test" [] = <["output" := out1]> t :: tests) as Ht1.
    { unfold data1, dict_get. by rewrite lookup_insert_eq. }
    assert (dict_get data2 "test" [] = <["output" := out2]> t :: tests) as Ht2.
    { unfold data2, dict_get. by rewrite lookup_insert_eq. }
    assert (dict_get data1 "train" [] = dict_get data "train" []) as Hr1.
    { unfold data1, dict_get. by rewrite lookup_insert_ne. }
    assert (dict_get data2 "train" [] = dict_get data "train" []) as Hr2.
    { unfold data2, dict_get. by rewrite lookup_insert_ne. }
    split.
    + rewrite !create_puzzle_image_ok by (right; by rewrite ?Ht1, ?Ht2).
      rewrite Ht1, Ht2, Hr1, Hr2. cbn [head].
      cbn [img_width img_height left_column_width column_spacing
           puzzle_layout_of].
      rewrite !input_insert_output, (blank_size_insert t out1 out2 Hsize).
      by rewrite (test_column_ops_insert _ t out1 out2 _ Hsize).
    + destruct (dict_get t "input" []) as [|row rows] eqn:Hin.
      * rewrite (create_test_image_no_input data1 _ _ Ht1)
          by (by rewrite input_insert_output).
        by rewrite (create_test_image_no_input data2 _ _ Ht2)
          by (by rewrite input_insert_output).
      * rewrite (create_test_image_ok data1 _ _ Ht1)
          by (by rewrite input_insert_output, Hin).
        rewrite (create_test_image_ok data2 _ _ Ht2)
          by (by rewrite input_insert_output, Hin).
        rewrite !input_insert_output, (blank_size_insert t out1 out2 Hsize).
        by rewrite (test_column_ops_insert _ t out1 out2 _ Hsize).
Qed.

Lemma blank_output_hides_cells_witness :
  create_puzzle_image
    (<["test" := [ <["output" := [[7; 7]; [7; 7]]]> {[ "input" := [[3]] ]} ]]>
       doc_roundtrip)
  = create_puzzle_image
      (<["test" := [ <["output" := [[1; 2]; [3]]]> {[ "input" := [[3]] ]} ]]>
         doc_roundtrip)
  /\ create_test_image
       (<["test" := [ <["output" := [[7; 7]; [7; 7]]]> {[ "input" := [[3]] ]} ]]>
          doc_roundtrip)
     = create_test_image
         (<["test" := [ <["output" := [[1; 2]; [3]]]> {[ "input" := [[3]] ]} ]]>
            doc_roundtrip).
Proof.
  destruct blank_output_hides_cells as [_ H].
  apply (H doc_roundtrip {[ "input" := [[3]] ]} [] [[7; 7]; [7; 7]] [[1; 2]; [3]]).
  reflexivity.
Defined.

(** ** What each composition needs *)

(** C5: [create_puzzle_image] raises exactly when the document has neither
    training pairs nor test pairs, each sequence being empty or its key
    missing, and the exception is then the [ValueError] for missing data; in
    every other case it returns an image. *)
Theorem puzzle_no_data (data : Document) :
  let nothing key := data !! key = None \/ data !! key = Some [] in
  (nothing "train" /\ nothing "test" ->
   create_puzzle_image data = Raise (ValueError "No train or test data found"))
  /\ (~ (nothing "train" /\ nothing "test") ->
      succeeds (create_puzzle_image data))
  /\ ((exists e, create_puzzle_image data = Raise e) <->
      nothing "train" /\ nothing "test").
Proof.
  intros nothing.
  assert (forall key, nothing key <-> dict_get data key [] = []) as Hnothing.
  { intros key. unfold nothing, dict_get.
    destruct (data !! key) as [[|a l]|]; simpl.
    - split; [done|intros _; by right].
    - split; [intros [H|H]; discriminate H|done].
    - split; [done|intros _; by left]. }
  assert (nothing "train" /\ nothing "test" ->
          create_puzzle_image data
          = Raise (ValueError "No train or test data found")) as Hraise.
  { rewrite !Hnothing. intros [Htrain Htest].
    unfold create_puzzle_image. by rewrite Htrain, Htest. }
  assert (~ (nothing "train" /\ nothing "test") ->
          succeeds (create_puzzle_image data)) as Hok.
  { rewrite !Hnothing. intros Hsome. eexists.
    apply create_puzzle_image_ok.
    destruct (dict_get data "train" []); [|by left].
    destruct (dict_get data "test" []); [|by right].
    by destruct Hsome. }
  split; [done|]. split; [done|]. split.
  - intros [e He].
    destruct (decide (dict_get data "train" [] = [])) as [Htrain|Htrain];
      destruct (decide (dict_get data "test" [] = [])) as [Htest|Htest];
      rewrite !Hnothing; try done;
      destruct Hok as [img Himg]; rewrite ?Hnothing; try tauto; congruence.
  - intros H. eexists. by apply Hraise.
Qed.

Lemma puzzle_no_data_witness :
  create_puzzle_image ({[ "train" := [] ]} : Document)
  = Raise (ValueError "No train or test data found")
  /\ succeeds (create_puzzle_image doc_roundtrip).
Proof.
  split.
  - apply (puzzle_no_data {[ "train" := [] ]}). split.
    + right. reflexivity.
    + left. reflexivity.
  - apply (puzzle_no_data doc_roundtrip). intros [[H|H] _]; discriminate H.
Defined.

(** C6, as stated, fails: a first test pair that has an ["input"] key and no
    ["output"] key, the input being a grid without rows, makes
    [create_test_image] raise as well. *)
Lemma test_image_rejects_empty_input :
  ~ (forall (data : Document) (t : Example) (tests : list Example),
       dict_get data "test" [] = t :: tests ->
       is_Some (t !! "input") ->
       t !! "output" = None ->
       (exists msg, create_answer_image data = Raise (ValueError msg))
       /\ succeeds (create_test_image data)).
Proof.
  intros Hclaim.
  destruct (Hclaim doc_empty_input {[ "input" := [] ]} []) as [_ [img Himg]].
  - reflexivity.
  - by eexists.
  - reflexivity.
  - vm_compute in Himg. discriminate Himg.
Qed.

(** C6, amended: [create_test_image] returns an image exactly when the first
    test pair exists and its input has at least one row; [create_answer_image]
    returns one exactly when the first test pair exists and its output has at
    least one row; both fail with a [ValueError] only.  So for a first test
    pair with a non-empty input and an output that is missing or empty, the
    answer image fails for lack of data while the test image is built. *)
Theorem answer_needs_output_test_needs_input (data : Document) :
  let test := dict_get data "test" [] in
  (succeeds (create_test_image data) <->
   exists t tests, test = t :: tests /\ dict_get t "input" [] <> [])
  /\ (succeeds (create_answer_image data) <->
      exists t tests, test = t :: tests /\ dict_get t "output" [] <> [])
  /\ (forall e,
        create_test_image data = Raise e \/ create_answer_image data = Raise e ->
        is_ValueError e = true)
  /\ (forall t tests,
        test = t :: tests ->
        dict_get t "input" [] <> [] ->
        dict_get t "output" [] = [] ->
        create_answer_image data = Raise (ValueError "No test output found")
        /\ succeeds (create_test_image data)).
Proof.
  intros test. subst test.
  destruct (dict_get data "test" []) as [|t tests] eqn:Htest.
  - rewrite (create_test_image_no_test data Htest),
      (create_answer_image_no_test data Htest).
    repeat split; try (by intros [? ?]); try (by intros (? & ? & ? & ?)).
    + by intros e [[= <-]|[= <-]].
    + done.
    + done.
  - assert (succeeds (create_test_image data) <-> dict_get t "input" [] <> [])
      as Htest_ok.
    { destruct (decide (dict_get t "input" [] = [])) as [Hin|Hin].
      - rewrite (create_test_image_no_input data t tests Htest Hin).
        split; [by intros [? ?]|done].
      - rewrite (create_test_image_ok data t tests Htest Hin).
        split; [done|by eexists]. }
    assert (succeeds (create_answer_image data) <-> dict_get t "output" [] <> [])
      as Hanswer_ok.
    { destruct (decide (dict_get t "output" [] = [])) as [Hout|Hout].
      - rewrite (create_answer_image_no_output data t tests Htest Hout).
        split; [by intros [? ?]|done].
      - rewrite (create_answer_image_ok data t tests Htest Hout).
        split; [done|by eexists]. }
    split; [|split; [|split]].
    + rewrite Htest_ok. split; [by exists t, tests|].
      by intros (? & ? & [= <- <-] & ?).
    + rewrite Hanswer_ok. split; [by exists t, tests|].
      by intros (? & ? & [= <- <-] & ?).
    + intros e [He|He].
      * destruct (decide (dict_get t "input" [] = [])) as [Hin|Hin].
        -- rewrite (create_test_image_no_input data t tests Htest Hin) in He.
           by injection He as <-.
        -- by rewrite (create_test_image_ok data t tests Htest Hin) in He.
      * destruct (decide (dict_get t "output" [] = [])) as [Hout|Hout].
        -- rewrite (create_answer_image_no_output data t tests Htest Hout) in He.
           by injection He as <-.
        -- by rewrite (create_answer_image_ok data t tests Htest Hout) in He.
    + intros t' tests' [= <- <-] Hin Hout. split.
      * by apply (create_answer_image_no_output data t tests).
      * by apply Htest_ok.
Qed.

Lemma answer_needs_output_test_needs_input_witness :
  create_answer_image doc_roundtrip = Raise (ValueError "No test output found")
  /\ succeeds (create_test_image doc_roundtrip).
Proof.
  destruct (answer_needs_output_test_needs_input doc_roundtrip)
    as (_ & _ & _ & H).
  apply (H {[ "input" := [[3]] ]} []).
  - reflexivity.
  - discriminate.
  - reflexivity.
Defined.

(** C8, as stated, fails: when the ["output"] key of the first test pair is
    present and holds a grid without rows, the blank grid does not take that
    grid's dimensions. *)
Lemma blank_grid_ignores_empty_output :
  ~ (forall (data : Document) (t : Example) (tests : list Example)
       (test_output : Grid),
       dict_get data "test" [] = t :: tests ->
       dict_get t "input" [] <> [] ->
       t !! "output" = Some test_output ->
       exists img,
         create_test_image data = Ok img
         /\ test_image_layout (dict_get t "input" [])
              (grid_size test_output).1 (grid_size test_output).2 img).
Proof.
  intros Hclaim.
  destruct (Hclaim doc_empty_output {[ "input" := [[1]]; "output" := [] ]} [] [])
    as (img & Himg & Hlayout).
  - reflexivity.
  - discriminate.
  - reflexivity.
  - vm_compute in Himg. injection Himg as <-.
    unfold test_image_layout in Hlayout. vm_compute in Hlayout.
    discriminate Hlayout.
Qed.

(** C8, amended: the test image shows, from top to bottom, the "Test" label,
    the "Input" label and the test input grid, a grid spacing, the "Output"
    label and a blank grid; the blank grid has the dimensions of the test
    output when that output has at least one row, and those of the test input
    when the output is missing or has no rows.  Every cell of the blank grid
    is white with outline (200, 200, 200). *)
Theorem test_image_layout_ok (data : Document) (t : Example)
    (tests : list Example) :
  dict_get data "test" [] = t :: tests ->
  dict_get t "input" [] <> [] ->
  let test_input := dict_get t "input" [] in
  let test_output := dict_get t "output" [] in
  exists img width height,
    create_test_image data = Ok img
    /\ test_image_layout test_input width height img
    /\ (test_output <> [] -> get_grid_size test_output = Ok (width, height))
    /\ (test_output = [] -> get_grid_size test_input = Ok (width, height))
    /\ forall op,
         op ∈ drop (length (ops img) - Z.to_nat height * Z.to_nat width) (ops img)
         -> exists box, op = Rectangle box (255, 255, 255) (200, 200, 200).
Proof.
  intros Htest Hin test_input test_output.
  pose proof (create_test_image_ok data t tests Htest Hin) as Himg.
  cbv zeta in Himg.
  match type of Himg with _ = Ok ?i => set (img := i) in Himg end.
  exists img, (blank_size t).1, (blank_size t).2.
  split; [exact Himg|].
  assert (ops img = test_column_ops MARGIN t None) as Hops by done.
  clearbody img.
  assert (test_image_layout test_input (blank_size t).1 (blank_size t).2 img)
    as Hlayout.
  { unfold test_image_layout. rewrite Hops.
    unfold test_column_ops, blank_y. fold test_input.
    match goal with
    | |- context [?a + LABEL_HEIGHT - LABEL_HEIGHT] =>
        replace (a + LABEL_HEIGHT - LABEL_HEIGHT) with a by lia
    end.
    done. }
  split; [exact Hlayout|].
  split; [|split].
  - intros Hout. rewrite get_grid_size_ok. unfold blank_size.
    fold test_output. destruct test_output; [done|].
    simpl truthy. cbv iota. by destruct (grid_size _).
  - intros Hout. rewrite get_grid_size_ok. unfold blank_size.
    fold test_output. rewrite Hout. simpl truthy. cbv iota.
    fold test_input. by destruct (grid_size _).
  - intros op. unfold test_image_layout in Hlayout. rewrite Hlayout.
    rewrite !app_assoc.
    match goal with
    | |- context [?pre ++ blank_cells ?w ?h ?x ?y ?c ?g] =>
        set (before := pre); set (blank := blank_cells w h x y c g)
    end.
    assert (length blank = (Z.to_nat (blank_size t).2
                            * Z.to_nat (blank_size t).1)%nat) as Hlen
      by apply length_cells.
    rewrite length_app, Hlen.
    replace (length before
             + Z.to_nat (blank_size t).2 * Z.to_nat (blank_size t).1
             - Z.to_nat (blank_size t).2 * Z.to_nat (blank_size t).1)%nat
      with (length before) by lia.
    rewrite drop_app_length. apply blank_cells_white.
Qed.

Lemma test_image_layout_ok_witness :
  exists img width height,
    create_test_image doc_empty_output = Ok img
    /\ test_image_layout [[1]] width height img
    /\ get_grid_size [[1]] = Ok (width, height).
Proof.
  destruct (test_image_layout_ok doc_empty_output
              {[ "input" := [[1]]; "output" := [] ]} [])
    as (img & width & height & Himg & Hlayout & _ & Hfallback & _).
  - reflexivity.
  - discriminate.
  - exists img, width, height. split; [exact Himg|]. split; [exact Hlayout|].
    apply Hfallback. reflexivity.
Defined.

(** ** Geometry of the puzzle canvas *)




(** C10: the property fails on the code.  With two training pairs the blank
    grid starts at the row of Example 2's output, while the canvas height
    allows for a blank grid stacked under the test input: here the canvas is
    350 pixels high and the last blank cell reaches down to pixel row 379. *)
Theorem aligned_blank_grid_overflows_canvas :
  exists img,
    create_puzzle_image doc_tall_output = Ok img
    /\ size img = (200, 350)
    /\ last (ops img)
       = Some (Rectangle (160, 360, 179, 379) (255, 255, 255) (200, 200, 200)).
Proof. eexists. split; [reflexivity|]. split; reflexivity. Qed.

(** ** The run of main *)

(** C3, as stated, fails: a test image that can be built and saved is not
    always written, because a failure of the examples image ends the run
    before the test image is attempted. *)
Lemma fatal_failure_stops_later_compositions :
  ~ (forall (save : Image -> string -> result unit)
       (output_dir base_name : string) (data : Document) (f : string * Image),
       produce save output_dir base_name (create_test_image data) "-test.png"
       = Ok f ->
       f ∈ files (main save output_dir base_name data).1).
Proof.
  intros Hclaim.
  destruct (produce save_ok "out" "task" (create_test_image doc_no_train)
              "-test.png") as [f|e] eqn:Hf;
    [|vm_compute in Hf; discriminate Hf].
  pose proof (Hclaim save_ok "out" "task" doc_no_train f Hf) as Hin.
  vm_compute in Hf. injection Hf as <-.
  apply list_elem_of_In in Hin. vm_compute in Hin.
  destruct Hin as [Hin|Hin]; [discriminate Hin|exact Hin].
Qed.

Section MainRun.

Variable save : Image -> string -> result unit.
Variables output_dir base_name : string.
Variable data : Document.

Local Abbreviation attempt := (produce save output_dir base_name).
Local Abbreviation run := (main save output_dir base_name data).

Lemma main_puzzle_fails (e : exn) :
  attempt (create_puzzle_image data) "-puzzle.png" = Raise e ->
  run = (eprint start ("Error creating puzzle image: " +:+ str e), Exit 1).
Proof.
  intros He. unfold main, and_then, try_puzzle. by rewrite He.
Qed.

Lemma main_examples_fails (f : string * Image) (e : exn) :
  attempt (create_puzzle_image data) "-puzzle.png" = Ok f ->
  attempt (create_examples_image data) "-examples.png" = Raise e ->
  run = (eprint (created start f)
           ("Error creating examples image: " +:+ str e), Exit 1).
Proof.
  intros Hf He. unfold main, and_then, try_puzzle, try_examples.
  by rewrite Hf, He.
Qed.

Lemma try_test_next (w : world) :
  (try_test save output_dir base_name data w).2 = Next.
Proof.
  unfold try_test.
  destruct (produce _ _ _ _ _) as [f|e]; [done|].
  by destruct (is_ValueError e).
Qed.

Lemma main_continues (f1 f2 : string * Image) :
  attempt (create_puzzle_image data) "-puzzle.png" = Ok f1 ->
  attempt (create_examples_image data) "-examples.png" = Ok f2 ->
  run = try_answer save output_dir base_name data
          (try_test save output_dir base_name data
             (created (created start f1) f2)).1.
Proof.
  intros Hf1 Hf2.
  unfold main, and_then at 1 2, try_puzzle, try_examples.
  rewrite Hf1, Hf2. unfold and_then.
  pose proof (try_test_next (created (created start f1) f2)) as Hnext.
  destruct (try_test _ _ _ _ _) as [w c]. simpl in Hnext. by subst c.
Qed.

(** What [try_test] and [try_answer] leave in the record of the run. *)
Lemma try_test_written (w : world) (f : string * Image) :
  attempt (create_test_image data) "-test.png" = Ok f ->
  f ∈ files (try_test save output_dir base_name data w).1.
Proof.
  intros Hf. unfold try_test. rewrite Hf. simpl.
  destruct f. set_solver.
Qed.

Lemma try_test_reported (w : world) (e : exn) :
  attempt (create_test_image data) "-test.png" = Raise e ->
  (if is_ValueError e
   then "Warning: " +:+ str e +:+ ". Skipping test image."
   else "Error creating test image: " +:+ str e)
  ∈ stderr (try_test save output_dir base_name data w).1.
Proof.
  intros He. unfold try_test. rewrite He.
  destruct (is_ValueError e); simpl; set_solver.
Qed.

Lemma try_answer_written (w : world) (f : string * Image) :
  attempt (create_answer_image data) "-answer.png" = Ok f ->
  f ∈ files (try_answer save output_dir base_name data w).1.
Proof.
  intros Hf. unfold try_answer. rewrite Hf. simpl.
  destruct f. set_solver.
Qed.

Lemma try_answer_reported (w : world) (e : exn) :
  attempt (create_answer_image data) "-answer.png" = Raise e ->
  (if is_ValueError e
   then "Warning: " +:+ str e +:+ ". Skipping answer image."
   else "Error creating answer image: " +:+ str e)
  ∈ stderr (try_answer save output_dir base_name data w).1.
Proof.
  intros He. unfold try_answer. rewrite He.
  destruct (is_ValueError e); simpl; set_solver.
Qed.

(** [try_answer] only adds to the record. *)
Lemma try_answer_keeps (w : world) :
  files w ⊆ files (try_answer save output_dir base_name data w).1
  /\ stderr w ⊆ stderr (try_answer save output_dir base_name data w).1.
Proof.
  unfold try_answer.
  destruct (produce _ _ _ _ _) as [f|e]; [simpl; set_solver|].
  destruct (is_ValueError e); simpl; set_solver.
Qed.

Lemma try_answer_status (w : world) :
  exit_status (try_answer save output_dir base_name data w).2 <> 0 <->
  exists e, attempt (create_answer_image data) "-answer.png" = Raise e
            /\ is_ValueError e = false.
Proof.
  unfold try_answer.
  destruct (produce _ _ _ _ _) as [f|e]; simpl.
  - split; [done|]. by intros (e & He & _).
  - destruct (is_ValueError e) eqn:Hv; simpl.
    + split; [done|]. intros (e' & [= <-] & Hv'). congruence.
    + split; [|done]. intros _. by exists e.
Qed.

Lemma try_answer_status_01 (w : world) :
  exit_status (try_answer save output_dir base_name data w).2 = 0
  \/ exit_status (try_answer save output_dir base_name data w).2 = 1.
Proof.
  unfold try_answer.
  destruct (produce _ _ _ _ _) as [f|e]; [by left|].
  destruct (is_ValueError e); [by left|by right].
Qed.

End MainRun.

(** C3, amended: the compositions are attempted in the order puzzle,
    examples, test, answer.  A failure of the puzzle image, or of the
    examples image, ends the run at once with status 1, nothing after it
    being attempted.  Once both are written, the test image and the answer
    image are both attempted whatever happens to the test image: each is
    written or has its failure reported.  The exit status is 0 or 1, and it
    is not 0 exactly when the puzzle image fails, the examples image fails,
    or the answer image fails with something other than a [ValueError]. *)
Theorem main_exit_status (save : Image -> string -> result unit)
    (output_dir base_name : string) (data : Document) :
  let attempt := produce save output_dir base_name in
  let puzzle := attempt (create_puzzle_image data) "-puzzle.png" in
  let examples := attempt (create_examples_image data) "-examples.png" in
  let test := attempt (create_test_image data) "-test.png" in
  let answer := attempt (create_answer_image data) "-answer.png" in
  let run := main save output_dir base_name data in
  (exit_status run.2 <> 0 <->
   (exists e, puzzle = Raise e)
   \/ (exists e, examples = Raise e)
   \/ (exists e, answer = Raise e /\ is_ValueError e = false))
  /\ (exit_status run.2 = 0 \/ exit_status run.2 = 1)
  /\ (forall e,
        puzzle = Raise e ->
        run = (eprint start ("Error creating puzzle image: " +:+ str e),
               Exit 1))
  /\ (forall f e,
        puzzle = Ok f -> examples = Raise e ->
        run = (eprint (created start f)
                 ("Error creating examples image: " +:+ str e),
               Exit 1))
  /\ (forall f1 f2,
        puzzle = Ok f1 -> examples = Ok f2 ->
        (forall f, test = Ok f -> f ∈ files run.1)
        /\ (forall e, test = Raise e ->
              (if is_ValueError e
               then "Warning: " +:+ str e +:+ ". Skipping test image."
               else "Error creating test image: " +:+ str e) ∈ stderr run.1)
        /\ (forall f, answer = Ok f -> f ∈ files run.1)
        /\ (forall e, answer = Raise e ->
              (if is_ValueError e
               then "Warning: " +:+ str e +:+ ". Skipping answer image."
               else "Error creating answer image: " +:+ str e)
              ∈ stderr run.1)).
Proof.
  intros attempt puzzle examples test answer run.
  subst run test answer.
  destruct puzzle as [f1|e1] eqn:Hpuzzle.
  2: { rewrite (main_puzzle_fails save output_dir base_name data e1 Hpuzzle).
       split; [|split; [|split; [|split]]]; try done.
       - split; [|done]. intros _. left. by exists e1.
       - by right.
       - by intros e [= <-]. }
  destruct examples as [f2|e2] eqn:Hexamples.
  2: { rewrite (main_examples_fails save output_dir base_name data f1 e2
                  Hpuzzle Hexamples).
       split; [|split; [|split; [|split]]]; try done.
       - split; [|done]. intros _. right. left. by exists e2.
       - by right.
       - by intros f e [= <-] [= <-]. }
  rewrite (main_continues save output_dir base_name data f1 f2
             Hpuzzle Hexamples).
  set (w := (try_test save output_dir base_name data
               (created (created start f1) f2)).1).
  split; [|split; [|split; [|split]]].
  - rewrite try_answer_status. split.
    + intros H. right. by right.
    + intros [[e He]|[[e He]|H]]; [done|done|exact H].
  - apply try_answer_status_01.
  - done.
  - done.
  - intros g1 g2 _ _.
    destruct (try_answer_keeps save output_dir base_name data w)
      as [Hfiles Hstderr].
    split; [|split; [|split]].
    + intros f Hf. apply Hfiles. by apply try_test_written.
    + intros e He. apply Hstderr. by apply try_test_reported.
    + intros f Hf. by apply try_answer_written.
    + intros e He. by apply try_answer_reported.
Qed.

Lemma main_exit_status_witness :
  exit_status (main save_ok "out" "task" doc_no_train).2 <> 0
  /\ main save_ok "out" "task" ({[ "train" := [] ]} : Document)
     = (eprint start "Error creating puzzle image: No train or test data found",
        Exit 1)
  /\ "Warning: No test output found. Skipping answer image."
     ∈ stderr (main save_ok "out" "task" doc_roundtrip).1.
Proof.
  split; [|split].
  - apply (main_exit_status save_ok "out" "task" doc_no_train).
    right. left. eexists. reflexivity.
  - destruct (main_exit_status save_ok "out" "task" {[ "train" := [] ]})
      as (_ & _ & Hpuzzle & _).
    apply (Hpuzzle (ValueError "No train or test data found")). reflexivity.
  - destruct (main_exit_status save_ok "out" "task" doc_roundtrip)
      as (_ & _ & _ & _ & Hlate).
    destruct (Hlate _ _ eq_refl eq_refl) as (_ & _ & _ & Hanswer).
    apply (Hanswer (ValueError "No test output found")). reflexivity.
Defined.

(** * Further properties *)

(** ** Colours of the cells *)

Lemma ARC_COLORS_inside (c : Z) :
  0 <= c <= 9 -> is_Some (ARC_COLORS !! c).
Proof.
  intros Hc.
  assert (c = 0 \/ c = 1 \/ c = 2 \/ c = 3 \/ c = 4 \/ c = 5 \/ c = 6
          \/ c = 7 \/ c = 8 \/ c = 9) as Hcases by lia.
  repeat (destruct Hcases as [->|Hcases]; [by eexists|]).
  subst c. by eexists.
Qed.

(** The ten colours are pairwise distinct. *)
Lemma ARC_COLORS_inj (a b : Z) :
  0 <= a <= 9 -> 0 <= b <= 9 ->
  dict_get ARC_COLORS a (0, 0, 0) = dict_get ARC_COLORS b (0, 0, 0) -> a = b.
Proof.
  intros Ha Hb.
  assert (a = 0 \/ a = 1 \/ a = 2 \/ a = 3 \/ a = 4 \/ a = 5 \/ a = 6
          \/ a = 7 \/ a = 8 \/ a = 9) as Hcasea by lia.
  assert (b = 0 \/ b = 1 \/ b = 2 \/ b = 3 \/ b = 4 \/ b = 5 \/ b = 6
          \/ b = 7 \/ b = 8 \/ b = 9) as Hcaseb by lia.
  destruct Hcasea as [->|[->|[->|[->|[->|[->|[->|[->|[->| ->]]]]]]]]];
    destruct Hcaseb as [->|[->|[->|[->|[->|[->|[->|[->|[->| ->]]]]]]]]];
    vm_compute; intros H; first [reflexivity | discriminate H].
Qed.

Lemma grid_size_nonneg (grid : Grid) :
  0 <= (grid_size grid).1 /\ 0 <= (grid_size grid).2.
Proof. destruct grid; simpl; unfold len; lia. Qed.

Lemma grid_size_height (grid : Grid) : (grid_size grid).2 = len grid.
Proof. by destruct grid. Qed.

(** X1: [draw_grid] never raises and draws one rectangle per cell of the
    block "first row's length by number of rows", row by row; a cell holding
    a colour index of the table is filled with that index's colour and
    outlined in (100, 100, 100). *)
Theorem draw_grid_table_colours draw (grid : Grid)
    x_offset y_offset cell_size grid_padding :
  let width := Z.to_nat (grid_size grid).1 in
  exists painted,
    draw_grid draw grid x_offset y_offset cell_size grid_padding
    = Ok (emit draw painted)
    /\ length painted = (length grid * width)%nat
    /\ forall (y x : nat) (row : list Z) (color_id : Z) (color : rgb),
         grid !! y = Some row ->
         (x < width)%nat ->
         row !! x = Some color_id ->
         ARC_COLORS !! color_id = Some color ->
         painted !! (y * width + x)%nat
         = Some (Rectangle
                   (cell_box x_offset y_offset cell_size grid_padding y x)
                   color (100, 100, 100)).
Proof.
  intros width. eexists. split; [apply draw_grid_ok|].
  unfold grid_cells. fold width. split.
  - rewrite length_cells, grid_size_height. unfold len. by rewrite Nat2Z.id.
  - intros y x row c color Hy Hx Hc Hcolor.
    rewrite lookup_cells; [|rewrite grid_size_height; unfold len;
                            rewrite Nat2Z.id; by eapply lookup_lt_Some|done].
    do 2 f_equal. unfold cell_color, cell_id, dict_get.
    rewrite Hy, Hc. simpl. by rewrite Hcolor.
Qed.

Lemma draw_grid_table_colours_witness :
  exists painted,
    draw_grid (Image_new (100, 100) (255, 255, 255)) [[1; 2]; [3; 4; 5]]
      20 50 20 0
    = Ok (emit (Image_new (100, 100) (255, 255, 255)) painted)
    /\ length painted = 4%nat
    /\ painted !! 3%nat
       = Some (Rectangle (40, 70, 59, 89) (255, 220, 0) (100, 100, 100)).
Proof.
  destruct (draw_grid_table_colours (Image_new (100, 100) (255, 255, 255))
              [[1; 2]; [3; 4; 5]] 20 50 20 0)
    as (painted & Hdraw & Hlen & Hcells).
  exists painted. split; [exact Hdraw|]. split; [exact Hlen|].
  apply (Hcells 1%nat 1%nat [3; 4; 5] 4 (255, 220, 0));
    [reflexivity|vm_compute; lia|reflexivity|reflexivity].
Defined.

(** ** Drawing stays on the canvas *)

Lemma grid_cells_inside (grid : Grid) (x_offset y_offset : Z) (sz : Z * Z)
    (op : draw_op) :
  0 <= x_offset -> 0 <= y_offset ->
  x_offset + (grid_size grid).1 * (CELL_SIZE + GRID_PADDING) <= sz.1 ->
  y_offset + (grid_size grid).2 * (CELL_SIZE + GRID_PADDING) <= sz.2 ->
  op ∈ grid_cells grid x_offset y_offset CELL_SIZE GRID_PADDING ->
  inside sz op.
Proof.
  intros Hx Hy Hw Hh (y & x & Hyh & Hxw & ->)%elem_of_cells.
  unfold inside, cell_box, CELL_SIZE, GRID_PADDING in *.
  destruct (grid_size_nonneg grid). nia.
Qed.

Lemma blank_cells_inside (width height x_offset y_offset : Z) (sz : Z * Z)
    (op : draw_op) :
  0 <= x_offset -> 0 <= y_offset ->
  x_offset + width * (CELL_SIZE + GRID_PADDING) <= sz.1 ->
  y_offset + height * (CELL_SIZE + GRID_PADDING) <= sz.2 ->
  op ∈ blank_cells width height x_offset y_offset CELL_SIZE GRID_PADDING ->
  inside sz op.
Proof.
  intros Hx Hy Hw Hh (y & x & Hyh & Hxw & ->)%elem_of_cells.
  unfold inside, cell_box, CELL_SIZE, GRID_PADDING in *. nia.
Qed.

Lemma example_height_nonneg (example : Example) : 0 <= example_height example.
Proof.
  unfold example_height, example_info, CELL_SIZE, GRID_PADDING. simpl.
  destruct (grid_size_nonneg (dict_get example "input" [])).
  destruct (grid_size_nonneg (dict_get example "output" [])). nia.
Qed.

Lemma example_height_covers (example : Example) :
  (grid_size (dict_get example "input" [])).2 * (CELL_SIZE + GRID_PADDING)
  <= example_height example
  /\ (grid_size (dict_get example "output" [])).2 * (CELL_SIZE + GRID_PADDING)
     <= example_height example.
Proof.
  unfold example_height, example_info, CELL_SIZE, GRID_PADDING. simpl. nia.
Qed.

Lemma column_height_nonneg (train : list Example) : 0 <= column_height train.
Proof.
  induction train as [|e train IH]; simpl; [done|].
  pose proof (example_height_nonneg e).
  unfold LABEL_HEIGHT, GRID_SPACING. lia.
Qed.

Lemma column_width_nonneg (train : list Example) : 0 <= column_width train.
Proof. induction train as [|e train IH]; simpl; lia. Qed.

Lemma blank_size_nonneg (t : Example) :
  0 <= (blank_size t).1 /\ 0 <= (blank_size t).2.
Proof. unfold blank_size. destruct (truthy _); apply grid_size_nonneg. Qed.

Lemma example_ops_inside (i : Z) (example : Example) (y_pos : Z) (sz : Z * Z)
    (op : draw_op) :
  0 <= y_pos ->
  MARGIN + example_width example <= sz.1 ->
  y_pos + LABEL_HEIGHT + LABEL_HEIGHT + example_height example <= sz.2 ->
  op ∈ example_ops (example_info i example) y_pos ->
  inside sz op.
Proof.
  intros Hy Hw Hh. unfold example_ops. cbn [TrainInfo.input TrainInfo.output
    TrainInfo.input_size TrainInfo.index example_info].
  destruct (grid_size_nonneg (dict_get example "input" [])).
  destruct (grid_size_nonneg (dict_get example "output" [])).
  destruct (example_height_covers example).
  unfold example_width in Hw.
  rewrite !elem_of_app, !elem_of_cons, elem_of_nil.
  intros [[->|[->|[]]]|[Hop|[[->|[]]|Hop]]]; try done.
  - eapply grid_cells_inside; last exact Hop;
      unfold MARGIN, LABEL_HEIGHT, GRID_SPACING, CELL_SIZE, GRID_PADDING in *;
      lia.
  - eapply grid_cells_inside; last exact Hop;
      unfold MARGIN, LABEL_HEIGHT, GRID_SPACING, CELL_SIZE, GRID_PADDING in *;
      lia.
Qed.

(** The examples drawn from [y_pos] on stay on a canvas that is wide enough
    for the widest example and high enough for all of them; the spacing after
    the last example may stick out. *)
Lemma train_ops_inside (train : list Example) (start y_pos : Z) (sz : Z * Z)
    (op : draw_op) :
  0 <= y_pos ->
  MARGIN + column_width train <= sz.1 ->
  y_pos + column_height train <= sz.2 + GRID_SPACING ->
  op ∈ train_ops (infos_from start train) y_pos ->
  inside sz op.
Proof.
  revert start y_pos.
  induction train as [|e train IH]; intros start y_pos Hy Hw Hh.
  - simpl. by rewrite elem_of_nil.
  - cbn [infos_from train_ops column_width column_height] in *.
    pose proof (example_height_nonneg e).
    pose proof (column_height_nonneg train).
    rewrite elem_of_app. intros [Hop|Hop].
    + apply (example_ops_inside start e y_pos); try done;
        unfold LABEL_HEIGHT, GRID_SPACING in *; lia.
    + apply (IH (start + 1) (next_y (example_info start e) y_pos));
        try done; unfold next_y; cbn [TrainInfo.height example_info];
        change (Z.max (grid_size (dict_get e "input" [])).2
                      (grid_size (dict_get e "output" [])).2
                * (CELL_SIZE + GRID_PADDING)) with (example_height e);
        unfold LABEL_HEIGHT, GRID_SPACING in *; lia.
Qed.

Lemma test_column_ops_inside (test_x : Z) (t : Example) (seen : option Z)
    (sz : Z * Z) (op : draw_op) :
  0 <= test_x ->
  test_x
  + Z.max (grid_size (dict_get t "input" [])).1 (blank_size t).1
    * (CELL_SIZE + GRID_PADDING) <= sz.1 ->
  MARGIN + LABEL_HEIGHT + LABEL_HEIGHT
  + (grid_size (dict_get t "input" [])).2 * (CELL_SIZE + GRID_PADDING) <= sz.2 ->
  0 <= blank_y t seen ->
  blank_y t seen + (blank_size t).2 * (CELL_SIZE + GRID_PADDING) <= sz.2 ->
  op ∈ test_column_ops test_x t seen ->
  inside sz op.
Proof.
  intros Hx Hw Hin Hy Hblank. unfold test_column_ops.
  destruct (grid_size_nonneg (dict_get t "input" [])).
  destruct (blank_size_nonneg t).
  rewrite !elem_of_app, !elem_of_cons, elem_of_nil.
  intros [[->|[->|[]]]|[Hop|[[->|[]]|Hop]]]; try done.
  - eapply grid_cells_inside; last exact Hop;
      unfold MARGIN, LABEL_HEIGHT, GRID_SPACING, CELL_SIZE, GRID_PADDING in *;
      lia.
  - eapply blank_cells_inside; last exact Hop;
      unfold MARGIN, LABEL_HEIGHT, GRID_SPACING, CELL_SIZE, GRID_PADDING in *;
      lia.
Qed.

Lemma create_examples_image_no_train (data : Document) :
  dict_get data "train" [] = [] ->
  create_examples_image data = Raise (ValueError "No train data found").
Proof. intros Htrain. unfold create_examples_image. by rewrite Htrain. Qed.

(** What a successful call tells about the document. *)
Lemma create_examples_image_inv (data : Document) (img : Image) :
  create_examples_image data = Ok img -> dict_get data "train" [] <> [].
Proof.
  intros Himg Htrain.
  by rewrite (create_examples_image_no_train data Htrain) in Himg.
Qed.

Lemma create_test_image_inv (data : Document) (img : Image) :
  create_test_image data = Ok img ->
  exists t tests,
    dict_get data "test" [] = t :: tests /\ dict_get t "input" [] <> [].
Proof.
  intros Himg. destruct (dict_get data "test" []) as [|t tests] eqn:Htest.
  - by rewrite (create_test_image_no_test data Htest) in Himg.
  - exists t, tests. split; [done|]. intros Hin.
    by rewrite (create_test_image_no_input data t tests Htest Hin) in Himg.
Qed.

Lemma create_answer_image_inv (data : Document) (img : Image) :
  create_answer_image data = Ok img ->
  exists t tests,
    dict_get data "test" [] = t :: tests /\ dict_get t "output" [] <> [].
Proof.
  intros Himg. destruct (dict_get data "test" []) as [|t tests] eqn:Htest.
  - by rewrite (create_answer_image_no_test data Htest) in Himg.
  - exists t, tests. split; [done|]. intros Hout.
    by rewrite (create_answer_image_no_output data t tests Htest Hout) in Himg.
Qed.

Lemma create_puzzle_image_inv (data : Document) (img : Image) :
  create_puzzle_image data = Ok img ->
  dict_get data "train" [] <> [] \/ dict_get data "test" [] <> [].
Proof.
  intros Himg. unfold create_puzzle_image in Himg.
  destruct (dict_get data "train" []); [|by left].
  destruct (dict_get data "test" []); [|by right].
  discriminate Himg.
Qed.

(** X2: [create_examples_image] raises [ValueError("No train data found")]
    when the document has no training pair (an empty list or no ["train"]
    key), and only then; otherwise it returns a canvas as wide as the widest
    example plus two margins and as high as the stacked examples plus one
    margin, on which it has drawn the examples from the top margin on. *)
Theorem examples_image_contract (data : Document) :
  let train := dict_get data "train" [] in
  (train = [] ->
   create_examples_image data = Raise (ValueError "No train data found"))
  /\ (train <> [] ->
      exists img,
        create_examples_image data = Ok img
        /\ size img = (column_width train + 2 * MARGIN,
                       column_height train + MARGIN)
        /\ background img = (255, 255, 255)
        /\ ops img = train_ops (infos_from 0 train) MARGIN).
Proof.
  intros train. split.
  - apply create_examples_image_no_train.
  - intros Htrain. eexists. split; [by apply create_examples_image_ok|done].
Qed.

Lemma examples_image_contract_witness :
  create_examples_image doc_no_train = Raise (ValueError "No train data found")
  /\ exists img,
       create_examples_image doc_roundtrip = Ok img /\ size img = (100, 120).
Proof.
  split.
  - apply (examples_image_contract doc_no_train). reflexivity.
  - destruct (examples_image_contract doc_roundtrip) as [_ H].
    destruct H as (img & Himg & Hsize & _); [discriminate|].
    exists img. split; [exact Himg|]. rewrite Hsize. reflexivity.
Defined.

(** X3: every cell that [create_examples_image] draws lies on the canvas it
    allocates. *)
Theorem examples_image_inside (data : Document) (img : Image) (op : draw_op) :
  create_examples_image data = Ok img ->
  op ∈ ops img ->
  inside (size img) op.
Proof.
  intros Himg.
  pose proof (create_examples_image_inv data img Himg) as Htrain.
  rewrite (create_examples_image_ok data Htrain) in Himg.
  injection Himg as <-. cbn [ops size].
  apply train_ops_inside; cbn [fst snd];
    pose proof (column_width_nonneg (dict_get data "train" []));
    unfold MARGIN, GRID_SPACING; lia.
Qed.

Lemma examples_image_inside_witness :
  exists img,
    create_examples_image doc_two_pairs = Ok img
    /\ inside (size img)
         (Rectangle (60, 180, 79, 199) (255, 220, 0) (100, 100, 100)).
Proof.
  destruct (create_examples_image doc_two_pairs) as [img|e] eqn:Himg;
    [|vm_compute in Himg; discriminate Himg].
  exists img. split; [reflexivity|].
  apply (examples_image_inside doc_two_pairs img _ Himg).
  vm_compute in Himg. injection Himg as <-.
  apply list_elem_of_In. vm_compute. tauto.
Defined.

(** X4: every cell that [create_test_image] draws, of the test input and of
    the blank grid, lies on the canvas it allocates. *)
Theorem test_image_inside (data : Document) (img : Image) (op : draw_op) :
  create_test_image data = Ok img ->
  op ∈ ops img ->
  inside (size img) op.
Proof.
  intros Himg.
  destruct (create_test_image_inv data img Himg) as (t & tests & Htest & Hin).
  rewrite (create_test_image_ok data t tests Htest Hin) in Himg.
  injection Himg as <-. cbn [ops size].
  destruct (grid_size_nonneg (dict_get t "input" [])).
  destruct (blank_size_nonneg t).
  apply test_column_ops_inside; cbn [fst snd blank_y];
    unfold MARGIN, LABEL_HEIGHT, GRID_SPACING, CELL_SIZE, GRID_PADDING; lia.
Qed.

Lemma test_image_inside_witness :
  exists img,
    create_test_image doc_tall_output = Ok img
    /\ inside (size img)
         (Rectangle (20, 330, 39, 349) (255, 255, 255) (200, 200, 200)).
Proof.
  destruct (create_test_image doc_tall_output) as [img|e] eqn:Himg;
    [|vm_compute in Himg; discriminate Himg].
  exists img. split; [reflexivity|].
  apply (test_image_inside doc_tall_output img _ Himg).
  vm_compute in Himg. injection Himg as <-.
  apply list_elem_of_In. vm_compute. tauto.
Defined.

(** X5: [create_answer_image] returns a canvas that leaves a margin around
    the output grid and a label row above it, with the "Test Output" label
    at the top left margin and the cells of the real output below it; every
    cell lies on the canvas. *)
Theorem answer_image_layout (data : Document) (img : Image) :
  create_answer_image data = Ok img ->
  exists t tests,
    dict_get data "test" [] = t :: tests
    /\ let test_output := dict_get t "output" [] in
       size img = ((grid_size test_output).1 * (CELL_SIZE + GRID_PADDING)
                   + 2 * MARGIN,
                   (grid_size test_output).2 * (CELL_SIZE + GRID_PADDING)
                   + LABEL_HEIGHT + 2 * MARGIN)
       /\ ops img = Text (MARGIN, MARGIN) "Test Output" (0, 0, 0)
                    :: grid_cells test_output MARGIN (MARGIN + LABEL_HEIGHT)
                         CELL_SIZE GRID_PADDING
       /\ forall op, op ∈ ops img -> inside (size img) op.
Proof.
  intros Himg.
  destruct (create_answer_image_inv data img Himg) as (t & tests & Htest & Hout).
  exists t, tests. split; [done|].
  rewrite (create_answer_image_ok data t tests Htest Hout) in Himg.
  injection Himg as <-. cbn [ops size].
  split; [done|]. split; [done|].
  intros op [->|Hop]%elem_of_cons; [done|].
  destruct (grid_size_nonneg (dict_get t "output" [])).
  eapply grid_cells_inside; last exact Hop; cbn [fst snd];
    unfold MARGIN, LABEL_HEIGHT, CELL_SIZE, GRID_PADDING; lia.
Qed.

Lemma answer_image_layout_witness :
  exists img t tests,
    create_answer_image doc_tall_output = Ok img
    /\ dict_get doc_tall_output "test" [] = t :: tests
    /\ size img = (60, 270).
Proof.
  destruct (create_answer_image doc_tall_output) as [img|e] eqn:Himg;
    [|vm_compute in Himg; discriminate Himg].
  destruct (answer_image_layout doc_tall_output img Himg)
    as (t & tests & Htest & Hsize & _).
  exists img, t, tests. split; [reflexivity|]. split; [exact Htest|].
  rewrite Hsize. injection Htest as <- _. reflexivity.
Defined.

(** With two training pairs or more the drawing loop leaves the row of
    Example 2's grids in [example2_output_y]; with fewer it leaves [None]. *)
Lemma tracked_two (e1 e2 : Example) (rest : list Example) :
  tracked (infos_from 0 (e1 :: e2 :: rest)) MARGIN None
  = Some (MARGIN + LABEL_HEIGHT + LABEL_HEIGHT + example_height e1
          + GRID_SPACING + LABEL_HEIGHT + LABEL_HEIGHT).
Proof.
  cbn [infos_from tracked].
  change (TrainInfo.index (example_info 0 e1) =? 1) with false.
  change (TrainInfo.index (example_info (0 + 1) e2) =? 1) with true.
  cbv iota. by rewrite tracked_later by lia.
Qed.

Lemma tracked_few (train : list Example) :
  (length train < 2)%nat -> tracked (infos_from 0 train) MARGIN None = None.
Proof.
  destruct train as [|e1 [|e2 rest]]; [done|done|simpl; lia].
Qed.

(** The left column and the test input of the puzzle image stay on the
    canvas; so does the blank grid, provided its bottom edge does. *)
Lemma puzzle_ops_inside (train : list Example) (first : option Example)
    (seen : option Z) (op : draw_op) :
  let L := puzzle_layout_of train first in
  match first with
  | Some t =>
      0 <= blank_y t seen
      /\ blank_y t seen + (blank_size t).2 * (CELL_SIZE + GRID_PADDING)
         <= img_height L
  | None => True
  end ->
  op ∈ train_ops (infos_from 0 train) MARGIN
       ++ match first with
          | Some t =>
              test_column_ops
                (left_column_width L + column_spacing L + MARGIN) t seen
          | None => []
          end ->
  inside (img_width L, img_height L) op.
Proof.
  intros L Hblank. subst L.
  cbn [img_width img_height left_column_width column_spacing puzzle_layout_of].
  pose proof (column_width_nonneg train).
  pose proof (column_height_nonneg train).
  rewrite elem_of_app. intros [Hop|Hop].
  - eapply train_ops_inside; last exact Hop; cbn [fst snd].
    + unfold MARGIN; lia.
    + destruct first as [t|];
        [destruct (grid_size_nonneg (dict_get t "input" []));
         destruct (blank_size_nonneg t)|];
        unfold MARGIN, GRID_SPACING, CELL_SIZE, GRID_PADDING; lia.
    + unfold MARGIN, GRID_SPACING; lia.
  - destruct first as [t|]; [|by apply elem_of_nil in Hop].
    destruct (grid_size_nonneg (dict_get t "input" [])).
    destruct (blank_size_nonneg t). destruct Hblank as [Hy Hbottom].
    eapply test_column_ops_inside; last exact Hop; cbn [fst snd]; try done;
      unfold MARGIN, LABEL_HEIGHT, GRID_SPACING, CELL_SIZE, GRID_PADDING in *;
      lia.
Qed.

(** X6: when the document has fewer than two training pairs, every cell that
    [create_puzzle_image] draws lies on the canvas it allocates. *)
Theorem puzzle_image_inside_stacked (data : Document) (img : Image)
    (op : draw_op) :
  (length (dict_get data "train" []) < 2)%nat ->
  create_puzzle_image data = Ok img ->
  op ∈ ops img ->
  inside (size img) op.
Proof.
  intros Hfew Himg.
  rewrite (create_puzzle_image_ok data (create_puzzle_image_inv data img Himg))
    in Himg.
  injection Himg as <-. cbn [ops size].
  apply puzzle_ops_inside.
  destruct (head (dict_get data "test" [])) as [t|]; [|done].
  rewrite (tracked_few _ Hfew). cbn [blank_y].
  cbn [img_height puzzle_layout_of].
  destruct (grid_size_nonneg (dict_get t "input" [])).
  destruct (blank_size_nonneg t).
  unfold MARGIN, LABEL_HEIGHT, GRID_SPACING, CELL_SIZE, GRID_PADDING; lia.
Qed.

Lemma puzzle_image_inside_stacked_witness :
  exists img,
    create_puzzle_image doc_roundtrip = Ok img
    /\ inside (size img)
         (Rectangle (160, 150, 179, 169) (255, 255, 255) (200, 200, 200)).
Proof.
  destruct (create_puzzle_image doc_roundtrip) as [img|e] eqn:Himg;
    [|vm_compute in Himg; discriminate Himg].
  exists img. split; [reflexivity|].
  apply (puzzle_image_inside_stacked doc_roundtrip img).
  - vm_compute. lia.
  - exact Himg.
  - vm_compute in Himg. injection Himg as <-.
    apply list_elem_of_In. vm_compute. tauto.
Defined.



(** ** The column of examples, example by example *)

Lemma train_ops_at (train : list Example) (k : nat) (e : Example)
    (start y_pos : Z) (op : draw_op) :
  train !! k = Some e ->
  op ∈ example_ops (example_info (start + Z.of_nat k) e)
         (y_pos + column_height (take k train)) ->
  op ∈ train_ops (infos_from start train) y_pos.
Proof.
  revert k start y_pos.
  induction train as [|a train IH]; intros k start y_pos Hk Hop; [done|].
  cbn [infos_from train_ops]. rewrite elem_of_app.
  destruct k as [|k].
  - left. injection Hk as <-. cbn [take column_height] in Hop.
    by replace (start + Z.of_nat 0) with start in Hop by lia;
      replace (y_pos + 0) with y_pos in Hop by lia.
  - right. apply (IH k); [done|].
    replace (start + 1 + Z.of_nat k) with (start + Z.of_nat (S k)) by lia.
    cbn [take column_height] in Hop. unfold next_y.
    cbn [TrainInfo.height example_info].
    change (Z.max (grid_size (dict_get a "input" [])).2
                  (grid_size (dict_get a "output" [])).2
            * (CELL_SIZE + GRID_PADDING)) with (example_height a).
    by replace (y_pos + LABEL_HEIGHT + LABEL_HEIGHT + example_height a
                + GRID_SPACING + column_height (take k train))
      with (y_pos + (example_height a + LABEL_HEIGHT * 2 + GRID_SPACING
                     + column_height (take k train)))
      by (unfold LABEL_HEIGHT; lia).
Qed.

(** X8: in the examples image the training pair of index [k] is numbered
    [k + 1] and starts below the pairs before it: its "Example" label is at
    the left margin, at the top margin plus the heights of the earlier pairs
    (each its row of grids, two label rows and one spacing); its input grid
    is drawn two label rows lower at the left margin, and its output grid at
    the same height, one spacing to the right of the input grid. *)
Theorem examples_image_rows (data : Document) (img : Image) (k : nat)
    (e : Example) :
  create_examples_image data = Ok img ->
  dict_get data "train" [] !! k = Some e ->
  let y_pos := MARGIN + column_height (take k (dict_get data "train" [])) in
  let output_x :=
    MARGIN
    + (grid_size (dict_get e "input" [])).1 * (CELL_SIZE + GRID_PADDING)
    + GRID_SPACING in
  Text (MARGIN, y_pos) ("Example " +:+ format_int (Z.of_nat k + 1)) (0, 0, 0)
  ∈ ops img
  /\ Text (MARGIN, y_pos + LABEL_HEIGHT) "Input" (0, 0, 0) ∈ ops img
  /\ Text (output_x, y_pos + LABEL_HEIGHT) "Output" (0, 0, 0) ∈ ops img
  /\ (forall op,
        op ∈ grid_cells (dict_get e "input" []) MARGIN
               (y_pos + LABEL_HEIGHT + LABEL_HEIGHT) CELL_SIZE GRID_PADDING ->
        op ∈ ops img)
  /\ (forall op,
        op ∈ grid_cells (dict_get e "output" []) output_x
               (y_pos + LABEL_HEIGHT + LABEL_HEIGHT) CELL_SIZE GRID_PADDING ->
        op ∈ ops img).
Proof.
  intros Himg Hk y_pos output_x.
  rewrite (create_examples_image_ok data
             (create_examples_image_inv data img Himg)) in Himg.
  injection Himg as <-. cbn [ops].
  assert (forall op,
            op ∈ example_ops (example_info (0 + Z.of_nat k) e) y_pos ->
            op ∈ train_ops (infos_from 0 (dict_get data "train" [])) MARGIN)
    as Hrow by (intros op; by apply train_ops_at).
  unfold example_ops in Hrow.
  cbn [TrainInfo.index TrainInfo.input TrainInfo.output TrainInfo.input_size
       example_info] in Hrow.
  fold output_x in Hrow.
  replace (0 + Z.of_nat k + 1) with (Z.of_nat k + 1) in Hrow by lia.
  repeat split; intros; apply Hrow;
    rewrite !elem_of_app, !elem_of_cons; tauto.
Qed.

Lemma examples_image_rows_witness :
  exists img,
    create_examples_image doc_two_pairs = Ok img
    /\ Text (20, 120) "Example 2" (0, 0, 0) ∈ ops img
    /\ Text (60, 150) "Output" (0, 0, 0) ∈ ops img.
Proof.
  destruct (create_examples_image doc_two_pairs) as [img|e] eqn:Himg;
    [|vm_compute in Himg; discriminate Himg].
  exists img. split; [reflexivity|].
  destruct (examples_image_rows doc_two_pairs img 1
              {[ "input" := [[3]]; "output" := [[4]] ]} Himg eq_refl)
    as (Hlabel & _ & Houtput & _).
  split; [exact Hlabel|exact Houtput].
Defined.

(** X9: for a document with training pairs, the puzzle image starts with
    exactly what the examples image shows, on a canvas at least as high; the
    test column comes after.  Without a test pair the two drawings are the
    same and the puzzle canvas is only wider, by twice the grid spacing. *)
Theorem puzzle_extends_examples (data : Document) :
  dict_get data "train" [] <> [] ->
  exists puzzle_img examples_img,
    create_puzzle_image data = Ok puzzle_img
    /\ create_examples_image data = Ok examples_img
    /\ ops examples_img `prefix_of` ops puzzle_img
    /\ (size examples_img).2 <= (size puzzle_img).2
    /\ (dict_get data "test" [] = [] ->
        ops puzzle_img = ops examples_img
        /\ size puzzle_img
           = ((size examples_img).1 + 2 * GRID_SPACING, (size examples_img).2)).
Proof.
  intros Htrain. eexists _, _.
  split; [apply create_puzzle_image_ok; by left|].
  split; [by apply create_examples_image_ok|].
  cbn [ops size fst snd]. split; [by eexists|].
  cbn [img_width img_height puzzle_layout_of].
  split; [lia|].
  intros Htest. rewrite Htest. cbn [head fmap]. rewrite app_nil_r.
  split; [done|].
  pose proof (column_height_nonneg (dict_get data "train" [])).
  f_equal; lia.
Qed.

Lemma puzzle_extends_examples_witness :
  exists puzzle_img examples_img,
    create_puzzle_image doc_two_pairs = Ok puzzle_img
    /\ create_examples_image doc_two_pairs = Ok examples_img
    /\ ops examples_img `prefix_of` ops puzzle_img.
Proof.
  destruct (puzzle_extends_examples doc_two_pairs)
    as (p & e & Hp & He & Hprefix & _); [discriminate|].
  exists p, e. split; [exact Hp|]. split; [exact He|exact Hprefix].
Defined.

(** X10: only the first test pair counts: replacing the test pairs after the
    first by any others changes none of the four images, nor the exceptions
    raised in their place. *)
Theorem only_first_test_pair (data : Document) (t : Example)
    (tests1 tests2 : list Example) :
  let data1 := <["test" := t :: tests1]> data in
  let data2 := <["test" := t :: tests2]> data in
  create_puzzle_image data1 = create_puzzle_image data2
  /\ create_examples_image data1 = create_examples_image data2
  /\ create_test_image data1 = create_test_image data2
  /\ create_answer_image data1 = create_answer_image data2.
Proof.
  intros data1 data2.
  assert (dict_get data1 "test" [] = t :: tests1) as Ht1.
  { unfold data1, dict_get. by rewrite lookup_insert_eq. }
  assert (dict_get data2 "test" [] = t :: tests2) as Ht2.
  { unfold data2, dict_get. by rewrite lookup_insert_eq. }
  assert (dict_get data1 "train" [] = dict_get data "train" []) as Hr1.
  { unfold data1, dict_get. by rewrite lookup_insert_ne. }
  assert (dict_get data2 "train" [] = dict_get data "train" []) as Hr2.
  { unfold data2, dict_get. by rewrite lookup_insert_ne. }
  split; [|split; [|split]].
  - rewrite !create_puzzle_image_ok by (right; by rewrite ?Ht1, ?Ht2).
    by rewrite Ht1, Ht2, Hr1, Hr2.
  - unfold create_examples_image. by rewrite Hr1, Hr2.
  - destruct (decide (dict_get t "input" [] = [])) as [Hin|Hin].
    + by rewrite (create_test_image_no_input data1 t tests1 Ht1 Hin),
        (create_test_image_no_input data2 t tests2 Ht2 Hin).
    + by rewrite (create_test_image_ok data1 t tests1 Ht1 Hin),
        (create_test_image_ok data2 t tests2 Ht2 Hin).
  - destruct (decide (dict_get t "output" [] = [])) as [Hout|Hout].
    + by rewrite (create_answer_image_no_output data1 t tests1 Ht1 Hout),
        (create_answer_image_no_output data2 t tests2 Ht2 Hout).
    + by rewrite (create_answer_image_ok data1 t tests1 Ht1 Hout),
        (create_answer_image_ok data2 t tests2 Ht2 Hout).
Qed.

(** ** The answer image holds the answer *)

Lemma rectangular_row (grid : Grid) (y : nat) (row : list Z) :
  rectangular grid -> grid !! y = Some row ->
  length row = Z.to_nat (grid_size grid).1.
Proof.
  intros Hrect Hy. unfold rectangular in Hrect.
  rewrite Forall_lookup in Hrect. specialize (Hrect y row Hy).
  unfold len in Hrect. lia.
Qed.

Lemma valid_cell_id (grid : Grid) (y x : nat) :
  valid_cells grid -> 0 <= cell_id grid y x <= 9.
Proof.
  intros Hvalid. unfold cell_id, valid_cells in *.
  destruct (grid !! y) as [row|] eqn:Hy; [|lia].
  rewrite Forall_lookup in Hvalid. specialize (Hvalid y row Hy).
  destruct (row !! x) as [c|] eqn:Hx; simpl; [|lia].
  rewrite Forall_lookup in Hvalid. by apply (Hvalid x c).
Qed.

(** Rectangular grids of the same size with the same cells are equal. *)
Lemma grid_eq_of_cells (grid1 grid2 : Grid) :
  rectangular grid1 -> rectangular grid2 ->
  grid_size grid1 = grid_size grid2 ->
  (forall y x : nat,
     (y < Z.to_nat (grid_size grid1).2)%nat ->
     (x < Z.to_nat (grid_size grid1).1)%nat ->
     cell_id grid1 y x = cell_id grid2 y x) ->
  grid1 = grid2.
Proof.
  intros Hrect1 Hrect2 Hsize Hcells.
  assert (length grid1 = length grid2) as Hlen.
  { pose proof (grid_size_height grid1) as H1.
    pose proof (grid_size_height grid2) as H2.
    rewrite Hsize, H2 in H1. unfold len in H1. lia. }
  apply list_eq. intros y.
  destruct (grid1 !! y) as [row1|] eqn:Hy1.
  - destruct (lookup_lt_is_Some_2 grid2 y) as [row2 Hy2].
    { rewrite <- Hlen. by eapply lookup_lt_Some. }
    rewrite Hy2. f_equal.
    pose proof (rectangular_row grid1 y row1 Hrect1 Hy1) as Hw1.
    pose proof (rectangular_row grid2 y row2 Hrect2 Hy2) as Hw2.
    rewrite <- Hsize in Hw2.
    apply list_eq. intros x.
    destruct (decide (x < Z.to_nat (grid_size grid1).1)%nat) as [Hx|Hx].
    + destruct (lookup_lt_is_Some_2 row1 x) as [c1 Hc1]; [lia|].
      destruct (lookup_lt_is_Some_2 row2 x) as [c2 Hc2]; [lia|].
      rewrite Hc1, Hc2. f_equal.
      assert (y < Z.to_nat (grid_size grid1).2)%nat as Hyh.
      { rewrite grid_size_height. unfold len. rewrite Nat2Z.id.
        by eapply lookup_lt_Some. }
      specialize (Hcells y x Hyh Hx). unfold cell_id in Hcells.
      by rewrite Hy1, Hy2, Hc1, Hc2 in Hcells.
    + by rewrite !lookup_ge_None_2 by lia.
  - symmetry. apply lookup_ge_None_2. rewrite <- Hlen.
    by apply lookup_ge_None_1.
Qed.

(** X11: the answer image determines the answer: two documents whose first
    test outputs are rectangular grids of colour indices 0..9, and for which
    [create_answer_image] returns the same image, have the same first test
    output. *)
Theorem answer_image_determines_output (data1 data2 : Document)
    (t1 t2 : Example) (tests1 tests2 : list Example) (img : Image) :
  dict_get data1 "test" [] = t1 :: tests1 ->
  dict_get data2 "test" [] = t2 :: tests2 ->
  rectangular (dict_get t1 "output" []) ->
  valid_cells (dict_get t1 "output" []) ->
  rectangular (dict_get t2 "output" []) ->
  valid_cells (dict_get t2 "output" []) ->
  create_answer_image data1 = Ok img ->
  create_answer_image data2 = Ok img ->
  dict_get t1 "output" [] = dict_get t2 "output" [].
Proof.
  intros Htest1 Htest2 Hrect1 Hvalid1 Hrect2 Hvalid2 Himg1 Himg2.
  destruct (create_answer_image_inv data1 img Himg1) as (t & ts & Ht & Hout1).
  rewrite Htest1 in Ht. injection Ht as <- <-.
  destruct (create_answer_image_inv data2 img Himg2) as (t & ts & Ht & Hout2).
  rewrite Htest2 in Ht. injection Ht as <- <-.
  rewrite (create_answer_image_ok data1 t1 tests1 Htest1 Hout1) in Himg1.
  rewrite (create_answer_image_ok data2 t2 tests2 Htest2 Hout2) in Himg2.
  set (out1 := dict_get t1 "output" []) in *.
  set (out2 := dict_get t2 "output" []) in *.
  rewrite <- Himg2 in Himg1. injection Himg1 as Hw Hh Hops.
  assert (grid_size out1 = grid_size out2) as Hsize.
  { destruct (grid_size out1), (grid_size out2). cbn [fst snd] in *.
    unfold CELL_SIZE, GRID_PADDING in *. f_equal; lia. }
  apply grid_eq_of_cells; try done.
  intros y x Hy Hx.
  assert (grid_cells out1 MARGIN (MARGIN + LABEL_HEIGHT) CELL_SIZE GRID_PADDING
          !! (y * Z.to_nat (grid_size out1).1 + x)%nat
          = grid_cells out2 MARGIN (MARGIN + LABEL_HEIGHT) CELL_SIZE GRID_PADDING
            !! (y * Z.to_nat (grid_size out1).1 + x)%nat) as Hcell
    by (by rewrite Hops).
  unfold grid_cells in Hcell. rewrite <- Hsize in Hcell.
  rewrite !lookup_cells in Hcell by done.
  injection Hcell as Hcolor.
  apply ARC_COLORS_inj; [by apply valid_cell_id..|exact Hcolor].
Qed.

Lemma answer_image_determines_output_witness :
  dict_get ({[ "input" := [[5]]; "output" := [[1; 2]; [3; 4]] ]} : Example)
    "output" []
  = dict_get ({[ "output" := [[1; 2]; [3; 4]] ]} : Example) "output" [].
Proof.
  destruct (create_answer_image
              {[ "test" := [ {[ "output" := [[1; 2]; [3; 4]] ]} ] ]})
    as [img|e] eqn:Himg; [|vm_compute in Himg; discriminate Himg].
  apply (answer_image_determines_output
           {[ "test" := [ {[ "input" := [[5]]; "output" := [[1; 2]; [3; 4]] ]} ] ]}
           {[ "test" := [ {[ "output" := [[1; 2]; [3; 4]] ]} ] ]}
           {[ "input" := [[5]]; "output" := [[1; 2]; [3; 4]] ]}
           {[ "output" := [[1; 2]; [3; 4]] ]}
           [] [] img).
  - reflexivity.
  - reflexivity.
  - repeat constructor.
  - repeat constructor; lia.
  - repeat constructor.
  - repeat constructor; lia.
  - rewrite <- Himg. reflexivity.
  - exact Himg.
Defined.

(** ** The test image and the test column of the puzzle image *)

Lemma fmap_bind_list {A B C} (f : B -> C) (g : A -> list B) (l : list A) :
  f <$> (l ≫= g) = l ≫= (fun a => f <$> g a).
Proof.
  induction l as [|a l IH]; [done|].
  by rewrite !bind_cons, fmap_app, IH.
Qed.

Lemma cells_fmap (f : draw_op -> draw_op) (paint : nat -> nat -> draw_op)
    (w h : nat) :
  f <$> cells paint w h = cells (fun y x => f (paint y x)) w h.
Proof.
  unfold cells. rewrite fmap_bind_list.
  apply list_bind_ext; [|done]. intros y. by rewrite fmap_bind_list.
Qed.

Lemma cells_ext (p q : nat -> nat -> draw_op) (w h : nat) :
  (forall y x, p y x = q y x) -> cells p w h = cells q w h.
Proof.
  intros Hpq. unfold cells.
  apply list_bind_ext; [|done]. intros y.
  apply list_bind_ext; [|done]. intros x. by rewrite Hpq.
Qed.

Lemma grid_cells_shift (grid : Grid) (x_offset y_offset cell_size
    grid_padding dx : Z) :
  grid_cells grid (x_offset + dx) y_offset cell_size grid_padding
  = shift_right dx
      <$> grid_cells grid x_offset y_offset cell_size grid_padding.
Proof.
  unfold grid_cells. rewrite cells_fmap. apply cells_ext. intros y x.
  unfold cell_box, shift_right. do 2 f_equal; f_equal; [f_equal|]; lia.
Qed.

Lemma blank_cells_shift (width height x_offset y_offset cell_size
    grid_padding dx : Z) :
  blank_cells width height (x_offset + dx) y_offset cell_size grid_padding
  = shift_right dx
      <$> blank_cells width height x_offset y_offset cell_size grid_padding.
Proof.
  unfold blank_cells. rewrite cells_fmap. apply cells_ext. intros y x.
  unfold cell_box, shift_right. do 2 f_equal; f_equal; [f_equal|]; lia.
Qed.

Lemma test_column_ops_shift (test_x dx : Z) (t : Example) (seen : option Z) :
  test_column_ops (test_x + dx) t seen
  = shift_right dx <$> test_column_ops test_x t seen.
Proof.
  unfold test_column_ops.
  rewrite !fmap_app, <- grid_cells_shift, <- blank_cells_shift. done.
Qed.

(** X12: the test image is the right-hand side of the puzzle image: for a
    document with fewer than two training pairs, what the puzzle image shows
    after its column of examples is the drawing of the test image moved to
    the right by the width of the left column plus the column spacing. *)
Theorem test_image_is_puzzle_column (data : Document) (test_img : Image) :
  let train := dict_get data "train" [] in
  (length train < 2)%nat ->
  create_test_image data = Ok test_img ->
  exists puzzle_img,
    create_puzzle_image data = Ok puzzle_img
    /\ ops puzzle_img
       = train_ops (infos_from 0 train) MARGIN
         ++ (shift_right (column_width train + 2 * MARGIN + GRID_SPACING * 2)
               <$> ops test_img).
Proof.
  intros train Hfew Htest_img.
  destruct (create_test_image_inv data test_img Htest_img)
    as (t & tests & Htest & Hin).
  rewrite (create_test_image_ok data t tests Htest Hin) in Htest_img.
  injection Htest_img as <-. cbn [ops].
  eexists. split.
  { apply create_puzzle_image_ok. right. by rewrite Htest. }
  cbn [ops]. rewrite Htest. cbn [head]. fold train.
  rewrite (tracked_few train Hfew).
  cbn [left_column_width column_spacing puzzle_layout_of].
  rewrite <- test_column_ops_shift. do 2 f_equal. lia.
Qed.

Lemma test_image_is_puzzle_column_witness :
  exists test_img puzzle_img,
    create_test_image doc_roundtrip = Ok test_img
    /\ create_puzzle_image doc_roundtrip = Ok puzzle_img
    /\ drop 5 (ops puzzle_img) = shift_right 140 <$> ops test_img.
Proof.
  destruct (create_test_image doc_roundtrip) as [test_img|e] eqn:Himg;
    [|vm_compute in Himg; discriminate Himg].
  destruct (test_image_is_puzzle_column doc_roundtrip test_img)
    as (puzzle_img & Hpuzzle & Hops); [vm_compute; lia|exact Himg|].
  exists test_img, puzzle_img. split; [reflexivity|]. split; [exact Hpuzzle|].
  rewrite Hops. vm_compute in Himg. injection Himg as <-. reflexivity.
Defined.

(** ** The canvases *)

(** X13: each of the four compositions that returns an image has allocated
    a canvas of positive width and height. *)
Theorem canvas_sizes_positive (data : Document) (img : Image) :
  create_puzzle_image data = Ok img
  \/ create_examples_image data = Ok img
  \/ create_test_image data = Ok img
  \/ create_answer_image data = Ok img ->
  0 < (size img).1 /\ 0 < (size img).2.
Proof.
  intros [Himg|[Himg|[Himg|Himg]]].
  - rewrite (create_puzzle_image_ok data
               (create_puzzle_image_inv data img Himg)) in Himg.
    injection Himg as <-. cbn [size fst snd img_width img_height
                                puzzle_layout_of].
    pose proof (column_width_nonneg (dict_get data "train" [])).
    pose proof (column_height_nonneg (dict_get data "train" [])).
    destruct (head (dict_get data "test" [])) as [t|];
      [destruct (grid_size_nonneg (dict_get t "input" []));
       destruct (blank_size_nonneg t)|];
      unfold MARGIN, GRID_SPACING, CELL_SIZE, GRID_PADDING; lia.
  - rewrite (create_examples_image_ok data
               (create_examples_image_inv data img Himg)) in Himg.
    injection Himg as <-. cbn [size fst snd].
    pose proof (column_width_nonneg (dict_get data "train" [])).
    pose proof (column_height_nonneg (dict_get data "train" [])).
    unfold MARGIN; lia.
  - destruct (create_test_image_inv data img Himg) as (t & tests & Ht & Hin).
    rewrite (create_test_image_ok data t tests Ht Hin) in Himg.
    injection Himg as <-. cbn [size fst snd].
    destruct (grid_size_nonneg (dict_get t "input" [])).
    destruct (blank_size_nonneg t).
    unfold MARGIN, LABEL_HEIGHT, GRID_SPACING, CELL_SIZE, GRID_PADDING; lia.
  - destruct (create_answer_image_inv data img Himg) as (t & tests & Ht & Hout).
    rewrite (create_answer_image_ok data t tests Ht Hout) in Himg.
    injection Himg as <-. cbn [size fst snd].
    destruct (grid_size_nonneg (dict_get t "output" [])).
    unfold MARGIN, LABEL_HEIGHT, CELL_SIZE, GRID_PADDING; lia.
Qed.

Lemma canvas_sizes_positive_witness :
  exists img,
    create_puzzle_image doc_no_train = Ok img
    /\ 0 < (size img).1 /\ 0 < (size img).2.
Proof.
  destruct (create_puzzle_image doc_no_train) as [img|e] eqn:Himg;
    [|vm_compute in Himg; discriminate Himg].
  exists img. split; [reflexivity|].
  apply (canvas_sizes_positive doc_no_train img). left. exact Himg.
Defined.

(** ** What main leaves behind *)








(** ** Cells do not overlap *)

Lemma overlap_sym (a b : draw_op) : overlap a b -> overlap b a.
Proof.
  destruct a as [[[[ax0 ay0] ax1] ay1] ? ?|], b as [[[[bx0 by0] bx1] by1] ? ?|];
    simpl; tauto.
Qed.

Lemma within_no_overlap (a b : draw_op) (ax0 ay0 ax1 ay1 bx0 by0 bx1 by1 : Z) :
  within ax0 ay0 ax1 ay1 a ->
  within bx0 by0 bx1 by1 b ->
  ax1 < bx0 \/ bx1 < ax0 \/ ay1 < by0 \/ by1 < ay0 ->
  ~ overlap a b.
Proof.
  destruct a as [[[[x0 y0] x1] y1] ? ?|], b as [[[[u0 v0] u1] v1] ? ?|];
    simpl; try tauto. lia.
Qed.

Lemma within_weaken (a : draw_op) (x0 y0 x1 y1 u0 v0 u1 v1 : Z) :
  within x0 y0 x1 y1 a ->
  u0 <= x0 -> v0 <= y0 -> x1 <= u1 -> y1 <= v1 ->
  within u0 v0 u1 v1 a.
Proof. destruct a as [[[[? ?] ?] ?] ? ?|]; simpl; [lia|done]. Qed.

Lemma apart_nil : apart [].
Proof. intros i j a b _ Hi. by rewrite lookup_nil in Hi. Qed.

Lemma apart_app (l1 l2 : list draw_op) :
  apart l1 -> apart l2 ->
  (forall a b, a ∈ l1 -> b ∈ l2 -> ~ overlap a b) ->
  apart (l1 ++ l2).
Proof.
  intros H1 H2 Hcross i j a b Hij Hi Hj.
  apply lookup_app_Some in Hi as [Hi|[Hi1 Hi]];
    apply lookup_app_Some in Hj as [Hj|[Hj1 Hj]].
  - by apply (H1 i j).
  - apply Hcross; by eapply list_elem_of_lookup_2.
  - intros Ho%overlap_sym. revert Ho.
    apply Hcross; by eapply list_elem_of_lookup_2.
  - apply (H2 (i - length l1)%nat (j - length l1)%nat); [lia|done|done].
Qed.

Lemma apart_text (xy : Z * Z) (text : string) (fill : rgb) (l : list draw_op) :
  apart l -> apart (Text xy text fill :: l).
Proof.
  intros Hl. apply (apart_app [Text xy text fill] l); [|done|].
  - intros [|i] [|j] a b Hij Hi Hj; try done.
  - intros a b ->%list_elem_of_singleton _. simpl. tauto.
Qed.

(** The position of a cell in the drawing of a block gives its row and
    column. *)
Lemma lookup_cells_inv (paint : nat -> nat -> draw_op) (w h i : nat)
    (a : draw_op) :
  cells paint w h !! i = Some a ->
  exists y x, (y < h)%nat /\ (x < w)%nat /\ i = (y * w + x)%nat
              /\ a = paint y x.
Proof.
  intros Hi. pose proof (lookup_lt_Some _ _ _ Hi) as Hlt.
  rewrite length_cells in Hlt.
  assert (w <> 0)%nat as Hw by (intros ->; lia).
  exists (i / w)%nat, (i mod w)%nat.
  pose proof (Nat.div_mod_eq i w) as Hdiv.
  pose proof (Nat.mod_upper_bound i w Hw) as Hmod.
  assert (i / w < h)%nat as Hy by (apply Nat.Div0.div_lt_upper_bound; lia).
  split; [done|]. split; [done|]. split; [lia|].
  assert (cells paint w h !! (i / w * w + i mod w)%nat = Some a) as Hi'
    by (by replace (i / w * w + i mod w)%nat with i by lia).
  rewrite (lookup_cells paint w h _ _ Hy Hmod) in Hi'.
  by injection Hi'.
Qed.

Lemma cells_apart (fill : nat -> nat -> rgb) (outline : rgb)
    (x_offset y_offset : Z) (w h : nat) :
  apart (cells (fun y x =>
                  Rectangle
                    (cell_box x_offset y_offset CELL_SIZE GRID_PADDING y x)
                    (fill y x) outline) w h).
Proof.
  intros i j a b Hij
    (y & x & _ & Hx & -> & ->)%lookup_cells_inv
    (y' & x' & _ & Hx' & -> & ->)%lookup_cells_inv.
  unfold overlap, cell_box, CELL_SIZE, GRID_PADDING.
  intros (H1 & H2 & H3 & H4).
  assert (x = x') by lia. assert (y = y') by lia. subst. lia.
Qed.

Lemma cells_within (fill : nat -> nat -> rgb) (outline : rgb)
    (x_offset y_offset : Z) (w h : nat) (a : draw_op) :
  a ∈ cells (fun y x =>
               Rectangle
                 (cell_box x_offset y_offset CELL_SIZE GRID_PADDING y x)
                 (fill y x) outline) w h ->
  within x_offset y_offset
    (x_offset + Z.of_nat w * (CELL_SIZE + GRID_PADDING) - 1)
    (y_offset + Z.of_nat h * (CELL_SIZE + GRID_PADDING) - 1) a.
Proof.
  intros (y & x & Hy & Hx & ->)%elem_of_cells.
  unfold within, cell_box, CELL_SIZE, GRID_PADDING. nia.
Qed.

Lemma grid_cells_apart (grid : Grid) (x_offset y_offset : Z) :
  apart (grid_cells grid x_offset y_offset CELL_SIZE GRID_PADDING).
Proof. apply cells_apart. Qed.

Lemma blank_cells_apart (width height x_offset y_offset : Z) :
  apart (blank_cells width height x_offset y_offset CELL_SIZE GRID_PADDING).
Proof. apply (cells_apart (fun _ _ => (255, 255, 255))). Qed.

Lemma grid_cells_within (grid : Grid) (x_offset y_offset : Z) (a : draw_op) :
  a ∈ grid_cells grid x_offset y_offset CELL_SIZE GRID_PADDING ->
  within x_offset y_offset
    (x_offset + (grid_size grid).1 * (CELL_SIZE + GRID_PADDING) - 1)
    (y_offset + (grid_size grid).2 * (CELL_SIZE + GRID_PADDING) - 1) a.
Proof.
  intros Ha%cells_within. destruct (grid_size_nonneg grid).
  by rewrite !Z2Nat.id in Ha by done.
Qed.

Lemma blank_cells_within (width height x_offset y_offset : Z) (a : draw_op) :
  0 <= width -> 0 <= height ->
  a ∈ blank_cells width height x_offset y_offset CELL_SIZE GRID_PADDING ->
  within x_offset y_offset
    (x_offset + width * (CELL_SIZE + GRID_PADDING) - 1)
    (y_offset + height * (CELL_SIZE + GRID_PADDING) - 1) a.
Proof.
  intros Hw Hh Ha. apply (cells_within (fun _ _ => (255, 255, 255))) in Ha.
  by rewrite !Z2Nat.id in Ha by done.
Qed.

Lemma example_ops_within (i : Z) (example : Example) (y_pos : Z)
    (a : draw_op) :
  a ∈ example_ops (example_info i example) y_pos ->
  within MARGIN (y_pos + LABEL_HEIGHT + LABEL_HEIGHT)
    (MARGIN + example_width example - 1)
    (y_pos + LABEL_HEIGHT + LABEL_HEIGHT + example_height example - 1) a.
Proof.
  unfold example_ops. cbn [TrainInfo.input TrainInfo.output
    TrainInfo.input_size TrainInfo.index example_info].
  destruct (grid_size_nonneg (dict_get example "input" [])).
  destruct (grid_size_nonneg (dict_get example "output" [])).
  destruct (example_height_covers example).
  rewrite !elem_of_app, !elem_of_cons, elem_of_nil.
  intros [[->|[->|[]]]|[Ha|[[->|[]]|Ha]]]; try done.
  - apply grid_cells_within in Ha.
    eapply within_weaken; [exact Ha|..]; unfold example_width;
      unfold MARGIN, LABEL_HEIGHT, GRID_SPACING, CELL_SIZE, GRID_PADDING in *;
      lia.
  - apply grid_cells_within in Ha.
    eapply within_weaken; [exact Ha|..]; unfold example_width;
      unfold MARGIN, LABEL_HEIGHT, GRID_SPACING, CELL_SIZE, GRID_PADDING in *;
      lia.
Qed.

Lemma example_ops_apart (i : Z) (example : Example) (y_pos : Z) :
  apart (example_ops (example_info i example) y_pos).
Proof.
  unfold example_ops. cbn [TrainInfo.input TrainInfo.output
    TrainInfo.input_size TrainInfo.index example_info app].
  do 2 apply apart_text.
  apply apart_app; [apply grid_cells_apart|apply apart_text, grid_cells_apart|].
  intros a b Ha%grid_cells_within [->|Hb%grid_cells_within]%elem_of_cons.
  - destruct a as [[[[? ?] ?] ?] ? ?|]; simpl; tauto.
  - eapply within_no_overlap; [exact Ha|exact Hb|].
    unfold GRID_SPACING. lia.
Qed.

Lemma train_ops_within (train : list Example) (start y_pos : Z) (a : draw_op) :
  a ∈ train_ops (infos_from start train) y_pos ->
  within MARGIN (y_pos + LABEL_HEIGHT + LABEL_HEIGHT)
    (MARGIN + column_width train - 1)
    (y_pos + column_height train - GRID_SPACING - 1) a.
Proof.
  revert start y_pos.
  induction train as [|e train IH]; intros start y_pos.
  - simpl. by rewrite elem_of_nil.
  - cbn [infos_from train_ops column_width column_height].
    pose proof (example_height_nonneg e).
    pose proof (column_height_nonneg train).
    rewrite elem_of_app. intros [Ha|Ha].
    + apply example_ops_within in Ha.
      eapply within_weaken; [exact Ha|..];
        unfold LABEL_HEIGHT, GRID_SPACING in *; lia.
    + apply IH in Ha. unfold next_y in Ha.
      cbn [TrainInfo.height example_info] in Ha.
      change (Z.max (grid_size (dict_get e "input" [])).2
                    (grid_size (dict_get e "output" [])).2
              * (CELL_SIZE + GRID_PADDING)) with (example_height e) in Ha.
      eapply within_weaken; [exact Ha|..];
        unfold LABEL_HEIGHT, GRID_SPACING in *; lia.
Qed.

Lemma train_ops_apart (train : list Example) (start y_pos : Z) :
  apart (train_ops (infos_from start train) y_pos).
Proof.
  revert start y_pos.
  induction train as [|e train IH]; intros start y_pos; [apply apart_nil|].
  cbn [infos_from train_ops].
  apply apart_app; [apply example_ops_apart|apply IH|].
  intros a b Ha%example_ops_within Hb%train_ops_within.
  eapply within_no_overlap; [exact Ha|exact Hb|].
  unfold next_y. cbn [TrainInfo.height example_info].
  change (Z.max (grid_size (dict_get e "input" [])).2
                (grid_size (dict_get e "output" [])).2
          * (CELL_SIZE + GRID_PADDING)) with (example_height e).
  unfold LABEL_HEIGHT, GRID_SPACING. lia.
Qed.

(** The test column keeps to the right of [test_x]. *)
Lemma test_column_ops_right (test_x : Z) (t : Example) (seen : option Z)
    (a b : draw_op) (x0 y0 x1 y1 : Z) :
  a ∈ test_column_ops test_x t seen ->
  within x0 y0 x1 y1 b -> x1 < test_x ->
  ~ overlap b a.
Proof.
  unfold test_column_ops. destruct (blank_size_nonneg t).
  rewrite !elem_of_app, !elem_of_cons, elem_of_nil.
  intros [[->|[->|[]]]|[Ha|[[->|[]]|Ha]]] Hb Hx;
    try (destruct b as [[[[? ?] ?] ?] ? ?|]; simpl; tauto).
  - apply grid_cells_within in Ha.
    eapply within_no_overlap; [exact Hb|exact Ha|lia].
  - apply blank_cells_within in Ha; [|done..].
    eapply within_no_overlap; [exact Hb|exact Ha|lia].
Qed.

(** The test column has no overlapping cells when the blank grid starts
    below the test input grid. *)
Lemma test_column_ops_apart (test_x : Z) (t : Example) (seen : option Z) :
  MARGIN + LABEL_HEIGHT + LABEL_HEIGHT
  + (grid_size (dict_get t "input" [])).2 * (CELL_SIZE + GRID_PADDING)
  <= blank_y t seen ->
  apart (test_column_ops test_x t seen).
Proof.
  intros Hbelow. unfold test_column_ops. cbn [app].
  destruct (blank_size_nonneg t).
  do 2 apply apart_text.
  apply apart_app; [apply grid_cells_apart|apply apart_text, blank_cells_apart|].
  intros a b Ha%grid_cells_within [->|Hb]%elem_of_cons.
  - destruct a as [[[[? ?] ?] ?] ? ?|]; simpl; tauto.
  - apply blank_cells_within in Hb; [|done..].
    eapply within_no_overlap; [exact Ha|exact Hb|]. lia.
Qed.

(** X16: no two cells drawn by [create_examples_image], by
    [create_test_image] or by [create_answer_image] share a pixel. *)
Theorem images_cells_apart (data : Document) (img : Image) :
  create_examples_image data = Ok img
  \/ create_test_image data = Ok img
  \/ create_answer_image data = Ok img ->
  apart (ops img).
Proof.
  intros [Himg|[Himg|Himg]].
  - rewrite (create_examples_image_ok data
               (create_examples_image_inv data img Himg)) in Himg.
    injection Himg as <-. apply train_ops_apart.
  - destruct (create_test_image_inv data img Himg) as (t & tests & Ht & Hin).
    rewrite (create_test_image_ok data t tests Ht Hin) in Himg.
    injection Himg as <-. cbn [ops].
    apply test_column_ops_apart. cbn [blank_y].
    unfold LABEL_HEIGHT, GRID_SPACING. lia.
  - destruct (create_answer_image_inv data img Himg) as (t & tests & Ht & Hout).
    rewrite (create_answer_image_ok data t tests Ht Hout) in Himg.
    injection Himg as <-. cbn [ops].
    apply apart_text, grid_cells_apart.
Qed.

Lemma images_cells_apart_witness :
  exists img, create_test_image doc_tall_output = Ok img /\ apart (ops img).
Proof.
  destruct (create_test_image doc_tall_output) as [img|e] eqn:Himg;
    [|vm_compute in Himg; discriminate Himg].
  exists img. split; [reflexivity|].
  apply (images_cells_apart doc_tall_output img). right. left. exact Himg.
Defined.

(** X17: with fewer than two training pairs, no two cells drawn by
    [create_puzzle_image] share a pixel. *)
Theorem puzzle_cells_apart_stacked (data : Document) (img : Image) :
  (length (dict_get data "train" []) < 2)%nat ->
  create_puzzle_image data = Ok img ->
  apart (ops img).
Proof.
  intros Hfew Himg.
  rewrite (create_puzzle_image_ok data (create_puzzle_image_inv data img Himg))
    in Himg.
  injection Himg as <-. cbn [ops].
  apply apart_app; [apply train_ops_apart| |].
  - destruct (head (dict_get data "test" [])) as [t|]; [|apply apart_nil].
    apply test_column_ops_apart. rewrite (tracked_few _ Hfew). cbn [blank_y].
    unfold LABEL_HEIGHT, GRID_SPACING. lia.
  - intros a b Ha%train_ops_within Hb.
    destruct (head (dict_get data "test" [])) as [t|];
      [|by apply elem_of_nil in Hb].
    eapply test_column_ops_right; [exact Hb|exact Ha|].
    cbn [left_column_width column_spacing puzzle_layout_of].
    unfold MARGIN, GRID_SPACING. lia.
Qed.

Lemma puzzle_cells_apart_stacked_witness :
  exists img, create_puzzle_image doc_roundtrip = Ok img /\ apart (ops img).
Proof.
  destruct (create_puzzle_image doc_roundtrip) as [img|e] eqn:Himg;
    [|vm_compute in Himg; discriminate Himg].
  exists img. split; [reflexivity|].
  apply (puzzle_cells_apart_stacked doc_roundtrip img); [vm_compute; lia|].
  exact Himg.
Defined.

(** X18: with two training pairs or more, and a test pair whose input grid
    and blank grid both have cells, no two cells drawn by
    [create_puzzle_image] share a pixel exactly when the test input grid ends
    above the row of Example 2's grids, where the blank grid starts; a taller
    test input is painted over by the blank grid. *)
Theorem puzzle_cells_apart_aligned (data : Document) (e1 e2 t : Example)
    (rest tests : list Example) (img : Image) :
  dict_get data "train" [] = e1 :: e2 :: rest ->
  dict_get data "test" [] = t :: tests ->
  0 < (grid_size (dict_get t "input" [])).1 ->
  0 < (blank_size t).1 -> 0 < (blank_size t).2 ->
  create_puzzle_image data = Ok img ->
  let input_y := MARGIN + LABEL_HEIGHT + LABEL_HEIGHT in
  let output_y :=
    MARGIN + LABEL_HEIGHT + LABEL_HEIGHT + example_height e1 + GRID_SPACING
    + LABEL_HEIGHT + LABEL_HEIGHT in
  apart (ops img) <->
  input_y + (grid_size (dict_get t "input" [])).2 * (CELL_SIZE + GRID_PADDING)
  <= output_y.
Proof.
  intros Htrain Htest Htw Hbw Hbh Himg input_y output_y.
  rewrite (create_puzzle_image_ok data (create_puzzle_image_inv data img Himg))
    in Himg.
  injection Himg as <-. cbn [ops].
  rewrite Htrain, Htest. cbn [head]. rewrite tracked_two. fold output_y.
  set (train := e1 :: e2 :: rest).
  set (test_x := left_column_width (puzzle_layout_of train (Some t))
                 + column_spacing (puzzle_layout_of train (Some t)) + MARGIN).
  set (test_input := dict_get t "input" []) in *.
  split.
  - intros Hapart.
    destruct (Z.le_gt_cases
                (input_y + (grid_size test_input).2 * (CELL_SIZE + GRID_PADDING))
                output_y) as [Hle|Hgt]; [done|]. exfalso.
    (* the test input cell in column 0 at the height of the blank grid *)
    set (m := Z.max (grid_size (dict_get e1 "input" [])).2
                    (grid_size (dict_get e1 "output" [])).2).
    assert (example_height e1 = m * (CELL_SIZE + GRID_PADDING)) as Heh by done.
    assert (0 <= m) as Hm
      by (destruct (grid_size_nonneg (dict_get e1 "input" [])); lia).
    set (r := Z.to_nat (4 + m)).
    set (a := Rectangle
                (cell_box test_x input_y CELL_SIZE GRID_PADDING r 0)
                (cell_color test_input r 0) (100, 100, 100)).
    set (b := Rectangle
                (cell_box test_x output_y CELL_SIZE GRID_PADDING 0 0)
                (255, 255, 255) (200, 200, 200)).
    assert (a ∈ grid_cells test_input test_x input_y CELL_SIZE GRID_PADDING)
      as Ha.
    { unfold grid_cells. apply list_elem_of_lookup.
      exists (r * Z.to_nat (grid_size test_input).1 + 0)%nat.
      apply (lookup_cells
               (fun y x =>
                  Rectangle (cell_box test_x input_y CELL_SIZE GRID_PADDING y x)
                    (cell_color test_input y x) (100, 100, 100))); [|lia].
      unfold r, input_y, output_y, MARGIN, LABEL_HEIGHT, GRID_SPACING,
        CELL_SIZE, GRID_PADDING in *. lia. }
    assert (b ∈ blank_cells (blank_size t).1 (blank_size t).2 test_x output_y
                  CELL_SIZE GRID_PADDING) as Hb.
    { unfold blank_cells. apply list_elem_of_lookup.
      exists (0 * Z.to_nat (blank_size t).1 + 0)%nat.
      apply (lookup_cells
               (fun y x =>
                  Rectangle (cell_box test_x output_y CELL_SIZE GRID_PADDING y x)
                    (255, 255, 255) (200, 200, 200))); lia. }
    assert (overlap a b) as Hoverlap.
    { unfold a, b, overlap, cell_box, r, input_y, output_y, MARGIN,
        LABEL_HEIGHT, GRID_SPACING, CELL_SIZE, GRID_PADDING in *.
      rewrite Heh. lia. }
    assert (a ∈ train_ops (infos_from 0 train) MARGIN
                ++ test_column_ops test_x t (Some output_y)) as Ha'.
    { rewrite elem_of_app. right. unfold test_column_ops.
      rewrite !elem_of_app. right. by left. }
    assert (b ∈ train_ops (infos_from 0 train) MARGIN
                ++ test_column_ops test_x t (Some output_y)) as Hb'.
    { rewrite elem_of_app. right. unfold test_column_ops. cbn [blank_y].
      rewrite !elem_of_app. right. right. by right. }
    apply list_elem_of_lookup in Ha' as [i Hi].
    apply list_elem_of_lookup in Hb' as [j Hj].
    apply (Hapart i j a b); [|done|done|done].
    intros ->. rewrite Hi in Hj. discriminate Hj.
  - intros Hle.
    apply apart_app; [apply train_ops_apart| |].
    + by apply test_column_ops_apart.
    + intros a b Ha%train_ops_within Hb.
      eapply test_column_ops_right; [exact Hb|exact Ha|].
      unfold test_x.
      cbn [left_column_width column_spacing puzzle_layout_of].
      unfold MARGIN, GRID_SPACING. lia.
Qed.

Lemma puzzle_cells_apart_aligned_witness :
  exists img, create_puzzle_image doc_tall_output = Ok img /\ apart (ops img).
Proof.
  destruct (create_puzzle_image doc_tall_output) as [img|e] eqn:Himg;
    [|vm_compute in Himg; discriminate Himg].
  exists img. split; [reflexivity|].
  apply (puzzle_cells_apart_aligned doc_tall_output
           {[ "input" := [[1]]; "output" := [[2]] ]}
           {[ "input" := [[3]]; "output" := [[4]] ]}
           {[ "input" := [[5]];
              "output" := [[0]; [0]; [0]; [0]; [0];
                           [0]; [0]; [0]; [0]; [0]] ]} [] [] img);
    [reflexivity|reflexivity|vm_compute; reflexivity|vm_compute; reflexivity
    |vm_compute; reflexivity|exact Himg|].
  vm_compute. discriminate.
Defined.

(** ** Colours and styles *)

Lemma cell_color_in_table (grid : Grid) (y x : nat) :
  exists color_id,
    0 <= color_id <= 9 /\ ARC_COLORS !! color_id = Some (cell_color grid y x).
Proof.
  unfold cell_color, dict_get.
  destruct (ARC_COLORS !! cell_id grid y x) as [color|] eqn:Hcolor.
  - exists (cell_id grid y x). split; [|done].
    destruct (Z.le_gt_cases 0 (cell_id grid y x)) as [Hlo|Hlo];
      [destruct (Z.le_gt_cases (cell_id grid y x) 9) as [Hhi|Hhi]; [lia|]|];
      rewrite ARC_COLORS_outside in Hcolor by lia; discriminate Hcolor.
  - exists 0. split; [lia|done].
Qed.

Lemma grid_cells_styled (grid : Grid) (x_offset y_offset cell_size
    grid_padding : Z) (op : draw_op) :
  op ∈ grid_cells grid x_offset y_offset cell_size grid_padding -> styled op.
Proof.
  intros (y & x & _ & _ & ->)%elem_of_cells. left. split; [done|].
  apply cell_color_in_table.
Qed.

Lemma blank_cells_styled (width height x_offset y_offset cell_size
    grid_padding : Z) (op : draw_op) :
  op ∈ blank_cells width height x_offset y_offset cell_size grid_padding ->
  styled op.
Proof. intros (box & ->)%blank_cells_white. by right. Qed.

Lemma train_ops_styled (infos : list TrainInfo.t) (y_pos : Z) (op : draw_op) :
  op ∈ train_ops infos y_pos -> styled op.
Proof.
  revert y_pos. induction infos as [|info infos IH]; intros y_pos.
  - simpl. by rewrite elem_of_nil.
  - cbn [train_ops]. rewrite elem_of_app. intros [Hop|Hop]; [|by eapply IH].
    unfold example_ops in Hop.
    rewrite !elem_of_app, !elem_of_cons, elem_of_nil in Hop.
    destruct Hop as [[->|[->|[]]]|[Hop|[[->|[]]|Hop]]]; try done;
      by eapply grid_cells_styled.
Qed.

Lemma test_column_ops_styled (test_x : Z) (t : Example) (seen : option Z)
    (op : draw_op) :
  op ∈ test_column_ops test_x t seen -> styled op.
Proof.
  unfold test_column_ops.
  rewrite !elem_of_app, !elem_of_cons, elem_of_nil.
  intros [[->|[->|[]]]|[Hop|[[->|[]]|Hop]]]; try done.
  - by eapply grid_cells_styled.
  - by eapply blank_cells_styled.
Qed.

(** X19: the four compositions draw on a white canvas and use no other
    styles than these: labels are black; a rectangle is either outlined in
    (100, 100, 100) and filled with one of the ten colours of the table, or
    white and outlined in (200, 200, 200).  The examples image and the answer
    image hold no rectangle of the second kind. *)
Theorem images_styled (data : Document) (img : Image) :
  (create_puzzle_image data = Ok img \/ create_test_image data = Ok img ->
   background img = (255, 255, 255)
   /\ forall op, op ∈ ops img -> styled op)
  /\ (create_examples_image data = Ok img \/ create_answer_image data = Ok img ->
      background img = (255, 255, 255)
      /\ forall op, op ∈ ops img ->
           styled op
           /\ forall box fill outline,
                op = Rectangle box fill outline -> outline = (100, 100, 100)).
Proof.
  split.
  - intros [Himg|Himg].
    + rewrite (create_puzzle_image_ok data
                 (create_puzzle_image_inv data img Himg)) in Himg.
      injection Himg as <-. split; [done|]. cbn [ops]. intros op.
      rewrite elem_of_app. intros [Hop|Hop]; [by eapply train_ops_styled|].
      destruct (head (dict_get data "test" [])) as [t|];
        [by eapply test_column_ops_styled|by apply elem_of_nil in Hop].
    + destruct (create_test_image_inv data img Himg) as (t & tests & Ht & Hin).
      rewrite (create_test_image_ok data t tests Ht Hin) in Himg.
      injection Himg as <-. split; [done|]. cbn [ops]. intros op Hop.
      by eapply test_column_ops_styled.
  - assert (forall (infos : list TrainInfo.t) y_pos op box fill outline,
              op ∈ train_ops infos y_pos ->
              op = Rectangle box fill outline -> outline = (100, 100, 100))
      as Htrain.
    { intros infos. induction infos as [|info infos IH];
        intros y_pos op box fill outline.
      - simpl. by rewrite elem_of_nil.
      - cbn [train_ops]. rewrite elem_of_app.
        intros [Hop|Hop]; [|by eapply IH].
        unfold example_ops in Hop.
        rewrite !elem_of_app, !elem_of_cons, elem_of_nil in Hop.
        destruct Hop as [[->|[->|[]]]|[Hop|[[->|[]]|Hop]]]; try done;
          apply elem_of_cells in Hop as (y & x & _ & _ & ->);
          by intros [= _ _ <-]. }
    intros [Himg|Himg].
    + rewrite (create_examples_image_ok data
                 (create_examples_image_inv data img Himg)) in Himg.
      injection Himg as <-. split; [done|]. cbn [ops]. intros op Hop.
      split; [by eapply train_ops_styled|].
      intros box fill outline. by eapply Htrain.
    + destruct (create_answer_image_inv data img Himg)
        as (t & tests & Ht & Hout).
      rewrite (create_answer_image_ok data t tests Ht Hout) in Himg.
      injection Himg as <-. split; [done|]. cbn [ops].
      intros op [->|Hop]%elem_of_cons; [done|].
      split; [by eapply grid_cells_styled|].
      apply elem_of_cells in Hop as (y & x & _ & _ & ->).
      by intros box fill outline [= _ _ <-].
Qed.

Lemma images_styled_witness :
  exists img,
    create_answer_image doc_tall_output = Ok img
    /\ background img = (255, 255, 255)
    /\ forall op, op ∈ ops img -> styled op.
Proof.
  destruct (create_answer_image doc_tall_output) as [img|e] eqn:Himg;
    [|vm_compute in Himg; discriminate Himg].
  destruct (images_styled doc_tall_output img) as [_ H].
  destruct (H (or_intror Himg)) as [Hbg Hops].
  exists img. split; [reflexivity|]. split; [exact Hbg|].
  intros op Hop. by destruct (Hops op Hop).
Defined.

(** ** main, by the shape of the document *)


